(** * trading-strategy: candle feeds, candle universes and the chain registry

    A shallow embedding of
    - [tradingstrategy/direct_feed/candle_feed.py] (class [CandleFeed]),
    - [tradingstrategy/chain.py] (the lazily initialised chain registry),
    - the fragment of pandas that [CandleFeed.apply_delta] calls,
    together with models, written from the specification, of the modules
    that the sources import but that are not part of them
    ([tradingstrategy/candle.py], [direct_feed/timeframe.py],
    [direct_feed/ohlcv_aggregate.py], [direct_feed/trade_feed.py]).

    Part I holds the definitions, Part II the theorems. *)

From Stdlib Require Import ZArith List Bool Lia PrimFloat.
From stdpp Require Import gmap strings list fin_maps.

Open Scope Z_scope.

Set Warnings "-register-all,-inexact-float".

(* ===================================================================== *)
(** * Part I. Definitions                                                  *)
(* ===================================================================== *)

(** ** Python values shared by all modules *)

(** [pd.Timestamp] and [pd.Timedelta] are 64-bit counts of nanoseconds;
    no operation below leaves the range, so they are kept as integers. *)
Definition Timestamp : Type := Z.
Definition Timedelta : Type := Z.

(** A dictionary key, as [KeyError] reports it. *)
Inductive key : Type :=
| IntKey (n : Z)
| StrKey (s : string).

(** The exceptions that the embedded code can raise. *)
Inductive exn : Type :=
| ValueError (msg : string)
| KeyError (k : key)
| TypeError (msg : string)
| AttributeError (msg : string)
| RuntimeError (msg : string)
| JSONDecodeError
| ChainDataDoesNotExist (chain_id : Z)
| CandleSampleUnavailable (pair_id : Z) (when : Timestamp) (tolerance : Timedelta).

(** A call either returns a value or raises. *)
Inductive result (A : Type) : Type :=
| Ok (a : A)
| Raise (e : exn).
Arguments Ok {A} a.
Arguments Raise {A} e.

#[export] Instance result_ret : MRet result := fun _ a => Ok a.
#[export] Instance result_bind : MBind result := fun _ _ k m =>
  match m with
  | Ok a => k a
  | Raise e => Raise e
  end.

#[export] Instance result_fmap : FMap result := fun _ _ f m =>
  match m with
  | Ok a => Ok (f a)
  | Raise e => Raise e
  end.

Definition is_ok {A} (r : result A) : bool :=
  match r with Ok _ => true | Raise _ => false end.

(** ** pandas: the calls made by [CandleFeed] *)

Module pandas.

(** A frame is its rows in storage order, each with its index label. *)
Definition DataFrame (Row : Type) : Type := list (Timestamp * Row).

(** [pd.DataFrame()] *)
Definition empty {Row} : DataFrame Row := [].

Definition index {Row} (df : DataFrame Row) : list Timestamp := map fst df.

(** [Index.is_monotonic_increasing]: each label is at most its successor. *)
Fixpoint is_monotonic_increasing (ax : list Timestamp) : bool :=
  match ax with
  | a :: (b :: _) as rest => (a <=? b) && is_monotonic_increasing rest
  | _ => true
  end.

Fixpoint is_monotonic_decreasing (ax : list Timestamp) : bool :=
  match ax with
  | a :: (b :: _) as rest => (b <=? a) && is_monotonic_decreasing rest
  | _ => true
  end.

(** The index is sorted one way or the other. *)
Definition is_sorted (ax : list Timestamp) : bool :=
  is_monotonic_increasing ax || is_monotonic_decreasing ax.

(** [Index.nunique()] *)
Definition nunique (ax : list Timestamp) : nat := length (remove_dups ax).

Fixpoint take_while {A} (p : A -> bool) (l : list A) : list A :=
  match l with
  | [] => []
  | x :: rest => if p x then x :: take_while p rest else []
  end.

Fixpoint drop_while {A} (p : A -> bool) (l : list A) : list A :=
  match l with
  | [] => []
  | x :: rest => if p x then drop_while p rest else l
  end.

(** [df.loc[before:after]] on a monotonic index. Label slices include
    both ends; the two positions are found by bisection
    ([searchsorted] with [side="left"] for the start and [side="right"]
    for the stop), that is, at the first row not before the slice and
    after the last row not past it, in the direction of the index. *)
Definition loc_slice {Row} (df : DataFrame Row)
    (before after : option Timestamp) : DataFrame Row :=
  if is_monotonic_increasing (index df) then
    let from :=
      match before with
      | Some b => drop_while (fun r => r.1 <? b) df
      | None => df
      end in
    match after with
    | Some a => take_while (fun r => r.1 <=? a) from
    | None => from
    end
  else
    let from :=
      match before with
      | Some b => drop_while (fun r => b <? r.1) df
      | None => df
      end in
    match after with
    | Some a => take_while (fun r => a <=? r.1) from
    | None => from
    end.

(** [NDFrame.truncate(before, after)] along the index:
<<
    if not ax.is_monotonic_increasing and not ax.is_monotonic_decreasing:
        raise ValueError("truncate requires a sorted index")
    if before is not None and after is not None and before > after:
        raise ValueError(f"Truncate: {after} must be after {before}")
    if len(ax) > 1 and ax.is_monotonic_decreasing and ax.nunique() > 1:
        before, after = after, before
    result = self.loc[before:after]
>> *)
Definition truncate {Row} (df : DataFrame Row)
    (before after : option Timestamp) : result (DataFrame Row) :=
  let ax := index df in
  if negb (is_monotonic_increasing ax) && negb (is_monotonic_decreasing ax)
  then Raise (ValueError "truncate requires a sorted index")
  else if match before, after with
          | Some b, Some a => a <? b
          | _, _ => false
          end
  then Raise (ValueError "Truncate: after must be after before")
  else
    let '(before, after) :=
      if (1 <? length ax)%nat && is_monotonic_decreasing ax && (1 <? nunique ax)%nat
      then (after, before) else (before, after) in
    Ok (loc_slice df before after).

(** [pd.concat(objs)] with its defaults ([axis=0], [ignore_index=False],
    [verify_integrity=False]): the rows of the frames one after the
    other, labels kept as they are and never compared. *)
Definition concat {Row} (objs : list (DataFrame Row)) : DataFrame Row :=
  List.concat objs.

End pandas.

(** ** tradingstrategy/direct_feed/candle_feed.py *)

Module candle_feed.
Import pandas.

(** What [candle_feed.py] imports from modules outside the sources:
    [PairId] (direct_feed_pair), [Timeframe] (timeframe), the trade
    table carried by a delta (trade_feed), and the two functions of
    ohlcv_aggregate. They are left open here, so every statement about
    [CandleFeed] holds whatever these turn out to be; the functions are
    pure and may raise. *)
Class Imports : Type := {
  PairId : Type;
  Timeframe : Type;
  TradeTable : Type;
  CandleRow : Type;
  ohlcv_resample_trades :
    TradeTable -> Timeframe -> result (DataFrame CandleRow);
  get_feed_for_pair :
    DataFrame CandleRow -> PairId -> result (DataFrame CandleRow);
}.

Section CandleFeed.
Context `{Imports}.

(** Modelled from the spec: [TradeDelta] of trade_feed.py, which is not
    among the sources; section 6 gives its fields as
    [{cycle: integer, start_ts: instant, trades: trade table}], and
    these are the three attributes that [apply_delta] reads. *)
Record TradeDelta : Type := {
  cycle : Z;
  start_ts : Timestamp;
  trades : TradeTable;
}.

(** The attributes of a [CandleFeed] instance. *)
Record CandleFeed : Type := {
  timeframe : Timeframe;
  candle_df : DataFrame CandleRow;
  last_cycle : Z;
}.

(** [CandleFeed.__init__(self, pairs, timeframe)] *)
Definition __init__ (pairs : list PairId) (timeframe : Timeframe)
    : CandleFeed :=
  {| timeframe := timeframe;
     candle_df := pandas.empty;
     last_cycle := 0 |}.

(** [CandleFeed.apply_delta(self, delta)]. The result is the instance
    after the call; both attributes are assigned after the last call
    that can raise, so when the call raises the instance is as it was. *)
Definition apply_delta (self : CandleFeed) (delta : TradeDelta)
    : result CandleFeed :=
  cropped_df ← truncate (candle_df self) None (Some (start_ts delta));
  candles ← ohlcv_resample_trades (trades delta) (timeframe self);
  Ok {| timeframe := timeframe self;
        candle_df := concat [cropped_df; candles];
        last_cycle := cycle delta |}.

(** [CandleFeed.get_candles_by_pair(self, pair)] *)
Definition get_candles_by_pair (self : CandleFeed) (pair : PairId)
    : result (DataFrame CandleRow) :=
  get_feed_for_pair (candle_df self) pair.

(** The rows of the owned table whose label is at most [delta.start_ts]. *)
Definition kept_rows (self : CandleFeed) (delta : TradeDelta)
    : DataFrame CandleRow :=
  List.filter (fun r => r.1 <=? start_ts delta) (candle_df self).

(** A client's use of a feed: a sequence of method calls, each
    observed by what it returns or raises. *)
Inductive call : Type :=
| ApplyDelta (delta : TradeDelta)
| GetCandlesByPair (pair : PairId).

Inductive observation : Type :=
| Returned
| ReturnedFrame (df : DataFrame CandleRow)
| Raised (e : exn).

Definition step (self : CandleFeed) (c : call)
    : observation * CandleFeed :=
  match c with
  | ApplyDelta delta =>
      match apply_delta self delta with
      | Ok self' => (Returned, self')
      | Raise e => (Raised e, self)
      end
  | GetCandlesByPair p =>
      match get_candles_by_pair self p with
      | Ok df => (ReturnedFrame df, self)
      | Raise e => (Raised e, self)
      end
  end.

Fixpoint run (self : CandleFeed) (calls : list call)
    : list observation * CandleFeed :=
  match calls with
  | [] => ([], self)
  | c :: rest =>
      let '(o, self') := step self c in
      let '(os, self'') := run self' rest in
      (o :: os, self'')
  end.

End CandleFeed.
End candle_feed.

(** ** tradingstrategy/chain.py *)

Module chain.

(** What [json.load] returns. *)
Inductive json : Type :=
| JNull
| JBool (b : bool)
| JNumber (n : Z)
| JString (s : string)
| JArray (items : list json)
| JObject (members : gmap string json).

Definition slug_key : string := "slug".

(** The part of the file system that the module reads: whether the folder
    [chains/_data/chains] exists next to the module, and, for every file
    [eip155-<chain_id>.json] in it, what parsing it gives ([None] when the
    content is not JSON). It is not written by the module. *)
Record FileSystem : Type := {
  chains_folder_exists : bool;
  data_files : gmap Z (option json);
}.

(** The module's two global dictionaries. *)
Record Globals : Type := {
  _chain_data : gmap Z json;
  _slug_map : gmap string Z;
}.

(** The state at import: both dictionaries are empty. *)
Definition at_import : Globals :=
  {| _chain_data := ∅; _slug_map := ∅ |}.

(** [class ChainId(enum.Enum)] *)
Inductive ChainId : Type :=
| ethereum
| bsc
| polygon.

Definition value (c : ChainId) : Z :=
  match c with
  | ethereum => 1
  | bsc => 56
  | polygon => 137
  end.

(** Iterating an enumeration yields its members in definition order. *)
Definition ChainId_members : list ChainId := [ethereum; bsc; polygon].

(** [_CHAIN_DATA_OVERRIDES] *)
Definition _CHAIN_DATA_OVERRIDES : gmap Z (gmap string json) :=
  {[ 1 := {[ "name" := JString "Ethereum";
             "slug" := JString "ethereum";
             "svg_icon" := JString "https://upload.wikimedia.org/wikipedia/commons/0/05/Ethereum_logo_2014.svg" ]};
     56 := {[ "name" := JString "Binance Smart Chain";
              "slug" := JString "binance";
              "svg_icon" := JString "https://hv4gxzchk24cqfezebn3ujjz6oy2kbtztv5vghn6kpbkjc3vg4rq.arweave.net/fgp9wHyH92hION8E6CuPtUNbmiTlqsl23QbQlwA8cZQ" ]};
     137 := {[ "name" := JString "Polygon";
               "slug" := JString "polygon";
               "svg_icon" := JString "https://hv4gxzchk24cqfezebn3ujjz6oy2kbtztv5vghn6kpbkjc3vg4rq.arweave.net/nLW0IfMZnhhaqdN1AbzC4d1NLZSpBlIMEHhXq-KcOws" ]} ]}.

(** Code that reads and writes the globals and may raise: the globals
    are threaded through, and a raise keeps what was written before it. *)
Definition M (A : Type) : Type := Globals -> result A * Globals.

Definition ret {A} (a : A) : M A := fun g => (Ok a, g).

Definition bind {A B} (m : M A) (k : A -> M B) : M B := fun g =>
  match m g with
  | (Ok a, g') => k a g'
  | (Raise e, g') => (Raise e, g')
  end.

Definition raise {A} (e : exn) : M A := fun g => (Raise e, g).

Definition read {A} (f : Globals -> A) : M A := fun g => (Ok (f g), g).

Definition write (f : Globals -> Globals) : M unit := fun g => (Ok tt, f g).

Notation "x <- m ;; k" := (bind m (fun x => k))
  (at level 100, m at next level, right associativity).
Notation "m ;; k" := (bind m (fun _ => k))
  (at level 100, right associativity).

(** [for x in xs: body(x)] *)
Fixpoint for_each {A} (xs : list A) (body : A -> M unit) : M unit :=
  match xs with
  | [] => ret tt
  | x :: rest => body x ;; for_each rest body
  end.

(** [_chain_data[chain_id] = v] *)
Definition set_chain_data (chain_id : Z) (v : json) : M unit :=
  write (fun g => {| _chain_data := <[chain_id := v]> (_chain_data g);
                     _slug_map := _slug_map g |}).

(** [_slug_map[slug] = chain_id] *)
Definition set_slug (slug : string) (chain_id : Z) : M unit :=
  write (fun g => {| _chain_data := _chain_data g;
                     _slug_map := <[slug := chain_id]> (_slug_map g) |}).

(** [bool(d)] for a dictionary: it is true when [len(d) != 0]. *)
Definition truthy {K} `{Countable K} {V} (d : gmap K V) : bool :=
  negb (size d =? 0)%nat.

(** The body of the first loop of [_ensure_chain_data_lazy_init]; the
    element stored by the assignment is the object that [update] then
    changes in place. *)
Definition load_chain (fs : FileSystem) (chain_id : Z) : M unit :=
  if negb (chains_folder_exists fs)
  then raise (RuntimeError "Chain data folder not found")
  else
    match data_files fs !! chain_id with
    | None => raise (ChainDataDoesNotExist chain_id)
    | Some None => raise JSONDecodeError
    | Some (Some loaded) =>
        set_chain_data chain_id loaded ;;
        match loaded with
        | JObject d =>
            set_chain_data chain_id
              (JObject (default ∅ (_CHAIN_DATA_OVERRIDES !! chain_id) ∪ d))
        | _ => raise (AttributeError "object has no attribute update")
        end
    end.

(** [_chain_data.items()], in insertion order. The second loop runs
    only when the dictionary was empty on entry, so its keys are the
    chain ids that the first loop inserted, in the order of the members. *)
Definition chain_data_items (g : Globals) : list (Z * json) :=
  omap (fun c => (fun data => (value c, data)) <$> _chain_data g !! value c)
       ChainId_members.

(** The body of the second loop: [_slug_map[data["slug"]] = chain_id]. *)
Definition index_slug (item : Z * json) : M unit :=
  let '(chain_id, data) := item in
  match data with
  | JObject d =>
      match d !! slug_key with
      | Some (JString slug) => set_slug slug chain_id
      | Some _ => raise (TypeError "slug is not a string")
      | None => raise (KeyError (StrKey slug_key))
      end
  | _ => raise (TypeError "chain data is not a dictionary")
  end.

(** [_ensure_chain_data_lazy_init()] *)
Definition _ensure_chain_data_lazy_init (fs : FileSystem) : M unit :=
  initialised <- read (fun g => truthy (_chain_data g)) ;;
  if initialised : bool then
    (* Already initialized *)
    ret tt
  else
    for_each (map value ChainId_members) (load_chain fs) ;;
    items <- read chain_data_items ;;
    for_each items index_slug.

(** [_get_chain_data(chain_id)] *)
Definition _get_chain_data (fs : FileSystem) (chain_id : Z) : M json :=
  _ensure_chain_data_lazy_init fs ;;
  found <- read (fun g => _chain_data g !! chain_id) ;;
  match found with
  | Some data => ret data
  | None => raise (KeyError (IntKey chain_id))
  end.

(** [_get_slug_map()] *)
Definition _get_slug_map (fs : FileSystem) : M (gmap string Z) :=
  _ensure_chain_data_lazy_init fs ;;
  read _slug_map.

(** *** The methods of [ChainId] *)

(** [obj[key]] for a string key, on a value that [json.load] returned:
    a dictionary is looked up, and no other value takes a string key. *)
Definition getitem (obj : json) (key : string) : M json :=
  match obj with
  | JObject d =>
      match d !! key with
      | Some v => ret v
      | None => raise (KeyError (StrKey key))
      end
  | JArray _ => raise (TypeError "list indices must be integers or slices, not str")
  | JString _ => raise (TypeError "string indices must be integers")
  | JNumber _ => raise (TypeError "'int' object is not subscriptable")
  | JBool _ => raise (TypeError "'bool' object is not subscriptable")
  | JNull => raise (TypeError "'NoneType' object is not subscriptable")
  end.

(** [ChainId.data] *)
Definition data (fs : FileSystem) (self : ChainId) : M json :=
  _get_chain_data fs (value self).

(** [ChainId.get_name()] *)
Definition get_name (fs : FileSystem) (self : ChainId) : M json :=
  d <- data fs self ;; getitem d "name".

(** [ChainId.get_slug()] *)
Definition get_slug (fs : FileSystem) (self : ChainId) : M json :=
  d <- data fs self ;; getitem d "slug".

(** [ChainId.get_homepage()] *)
Definition get_homepage (fs : FileSystem) (self : ChainId) : M json :=
  d <- data fs self ;; getitem d "infoURL".

(** [ChainId.get_svg_icon_link()] *)
Definition get_svg_icon_link (fs : FileSystem) (self : ChainId) : M json :=
  d <- data fs self ;; getitem d "svg_icon".

(** [ChainId(value)]: the member with that value, or [ValueError]. *)
Definition ChainId_of_value (v : Z) : M ChainId :=
  if v =? 1 then ret ethereum
  else if v =? 56 then ret bsc
  else if v =? 137 then ret polygon
  else raise (ValueError "not a valid ChainId").

(** [ChainId.get_by_slug(slug)] *)
Definition get_by_slug (fs : FileSystem) (slug : string) : M (option ChainId) :=
  slug_map <- _get_slug_map fs ;;
  match slug_map !! slug with
  | None => ret None
  | Some chain_id_value =>
      c <- ChainId_of_value chain_id_value ;; ret (Some c)
  end.

(** The entry of [_CHAIN_DATA_OVERRIDES] for a chain id, as
    [_CHAIN_DATA_OVERRIDES.get(chain_id, {})] gives it. *)
Definition overrides (chain_id : Z) : gmap string json :=
  default ∅ (_CHAIN_DATA_OVERRIDES !! chain_id).

(** The three chain files hold the JSON objects [d1], [d56] and [d137], in
    a folder that exists. *)
Definition holds (fs : FileSystem) (d1 d56 d137 : gmap string json) : Prop :=
  chains_folder_exists fs = true /\
  data_files fs !! 1 = Some (Some (JObject d1)) /\
  data_files fs !! 56 = Some (Some (JObject d56)) /\
  data_files fs !! 137 = Some (Some (JObject d137)).

(** The globals after a first access on such files, from globals [g]. *)
Definition filled (g : Globals) (d1 d56 d137 : gmap string json) : Globals :=
  {| _chain_data :=
       <[137 := JObject (overrides 137 ∪ d137)]>
         (<[56 := JObject (overrides 56 ∪ d56)]>
            (<[1 := JObject (overrides 1 ∪ d1)]> (_chain_data g)));
     _slug_map :=
       <["polygon" := 137]>
         (<["binance" := 56]> (<["ethereum" := 1]> (_slug_map g))) |}.

(** The object among [d1], [d56] and [d137] that belongs to a chain. *)
Definition file_of (c : ChainId) (d1 d56 d137 : gmap string json)
    : gmap string json :=
  match c with
  | ethereum => d1
  | bsc => d56
  | polygon => d137
  end.

(** The slug that the overrides give a chain. *)
Definition override_slug (c : ChainId) : string :=
  match c with
  | ethereum => "ethereum"
  | bsc => "binance"
  | polygon => "polygon"
  end.

(** A file system with the data folder and the three chain files, each
    holding an object with the chain's id and a slug of the data
    repository's own. *)
Definition chain_file (chain_id : Z) (short_name : string) : option json :=
  Some (JObject {[ "chainId" := JNumber chain_id;
                   "slug" := JString short_name;
                   "shortName" := JString short_name ]}).

Definition packaged : FileSystem :=
  {| chains_folder_exists := true;
     data_files := {[ 1 := chain_file 1 "eth";
                      56 := chain_file 56 "bnb";
                      137 := chain_file 137 "matic" ]} |}.

(** The globals after the first access on [packaged]. *)
Definition initialised : Globals :=
  (_ensure_chain_data_lazy_init packaged at_import).2.

(** A file system where the file of chain 56 is missing. *)
Definition incomplete : FileSystem :=
  {| chains_folder_exists := true;
     data_files := {[ 1 := chain_file 1 "eth";
                      137 := chain_file 137 "matic" ]} |}.

End chain.

(** ** Durations and instants used in examples *)

Definition seconds (n : Z) : Timedelta := n * 1000000000.
Definition minutes (n : Z) : Timedelta := seconds (60 * n).
Definition hours (n : Z) : Timedelta := minutes (60 * n).
Definition days (n : Z) : Timedelta := hours (24 * n).

(** Midnight of the given day of 2020 and a time of that day. *)
Definition date_2020_01_01 : Timestamp := seconds 1577836800.
Definition date_2020_02_01 : Timestamp := date_2020_01_01 + days 31.
Definition date_2020_03_01 : Timestamp := date_2020_02_01 + days 29.
Definition date_2020_09_01 : Timestamp := date_2020_03_01 + days 184.

(** ** tradingstrategy/candle.py (not among the sources) *)

Module candle.

(** Modelled from the spec: the row type [Candle] of candle.py, which is
    not among the sources. Section 3: fields [pair_id] (an integer),
    [timestamp] (the start of the bucket), [open], [high], [low], [close]
    (floating values) and [volume]; the optional columns are left out. *)
Record Candle : Type := {
  pair_id : Z;
  timestamp : Timestamp;
  open : float;
  high : float;
  low : float;
  close : float;
  volume : float;
}.

(** The timestamps of a series rise strictly: sorted ascending and unique. *)
Fixpoint is_ascending (series : list Candle) : bool :=
  match series with
  | a :: (b :: _) as rest => (timestamp a <? timestamp b) && is_ascending rest
  | _ => true
  end.

(** Puts a row into a series sorted by timestamp, after the rows that are
    not later than it. *)
Fixpoint insert_by_timestamp (c : Candle) (series : list Candle) : list Candle :=
  match series with
  | [] => [c]
  | d :: rest =>
      if timestamp c <? timestamp d then c :: series
      else d :: insert_by_timestamp c rest
  end.

(** Modelled from the spec: [GroupedCandleUniverse] of candle.py. Section 3:
    internally partitioned by [pair_id], each partition sorted ascending
    by [timestamp]. *)
Record GroupedCandleUniverse : Type := {
  pairs : gmap Z (list Candle);
}.

(** The grouping pass: each row goes into the series of its pair, at its
    place by timestamp. *)
Definition group_rows (groups : gmap Z (list Candle)) (df : list Candle)
    : gmap Z (list Candle) :=
  foldl (fun groups c =>
           <[pair_id c :=
               insert_by_timestamp c (default [] (groups !! pair_id c))]>
             groups)
        groups df.

(** Modelled from the spec: the constructor of [GroupedCandleUniverse].
    Section 4.1: construction groups the rows of the table by [pair_id]
    and sorts each group by [timestamp] ascending. *)
Definition __init__ (df : list Candle) : GroupedCandleUniverse :=
  {| pairs := group_rows ∅ df |}.

(** The invariant of the grouping pass: every group holds rows of its own
    pair taken from the rows grouped so far, and is ascending. *)
Definition grouped (done : list Candle) (groups : gmap Z (list Candle)) : Prop :=
  forall p series, groups !! p = Some series ->
    is_ascending series = true /\
    forall c, c ∈ series -> c ∈ done /\ pair_id c = p.

(** Modelled from the spec, section 4.1: the number of distinct [pair_id]
    values present. *)
Definition get_pair_count (self : GroupedCandleUniverse) : nat :=
  size (pairs self).

(** Modelled from the spec, section 4.1: the total row count across all
    pairs. *)
Definition get_candle_count (self : GroupedCandleUniverse) : nat :=
  map_fold (fun _ series n => (length series + n)%nat) 0%nat (pairs self).

(** Modelled from the spec, section 4.1: the pair's full ascending series;
    fails with a pair-not-found condition if [pair_id] is absent. *)
Definition get_candles_by_pair (self : GroupedCandleUniverse) (pair_id : Z)
    : result (list Candle) :=
  match pairs self !! pair_id with
  | Some series => Ok series
  | None => Raise (KeyError (IntKey pair_id))
  end.

(** The rows of the universe, group after group. For a universe of one
    pair this is that pair's series. *)
Definition rows (self : GroupedCandleUniverse) : list Candle :=
  List.concat (map snd (map_to_list (pairs self))).

(** Modelled from the spec: [get_single_pair_data(timestamp, allow_current)]
    of candle.py. Section 4.1: the rows known strictly before [timestamp],
    and also the rows exactly at [timestamp] when [allow_current] is set.
    The method takes no pair; the spec narrows it to universes of one
    pair, and here it reads every row of the universe. *)
Definition get_single_pair_data (self : GroupedCandleUniverse)
    (timestamp_ : Timestamp) (allow_current : bool) : list Candle :=
  List.filter
    (fun c => if allow_current then timestamp c <=? timestamp_
              else timestamp c <? timestamp_)
    (rows self).

(** The right-most candle of an ascending series that does not exceed
    [when]: the last one of the leading candles at or before [when]. *)
Definition rightmost_not_after (when : Timestamp) (series : list Candle)
    : option Candle :=
  last (pandas.take_while (fun c => timestamp c <=? when) series).

(** [c] is the candle of [series] with the greatest timestamp that does
    not exceed [when]. *)
Definition nearest_before (when : Timestamp) (series : list Candle)
    (c : Candle) : Prop :=
  c ∈ series /\ timestamp c <= when /\
  forall d, d ∈ series -> timestamp d <= when -> timestamp d <= timestamp c.

(** Modelled from the spec: [get_price_with_tolerance(pair_id, when,
    tolerance)] of candle.py. Section 4.1: an ordered lookup of the
    right-most candle not exceeding [when]; if there is none, or if
    [distance > tolerance], it fails with [CandleSampleUnavailable] naming
    the pair, the instant and the tolerance; otherwise it returns the
    candle's [close] and [distance = when - timestamp]. *)
Definition get_price_with_tolerance (self : GroupedCandleUniverse)
    (pair_id : Z) (when : Timestamp) (tolerance : Timedelta)
    : result (float * Timedelta) :=
  series ← get_candles_by_pair self pair_id;
  match rightmost_not_after when series with
  | None => Raise (CandleSampleUnavailable pair_id when tolerance)
  | Some c =>
      let distance := when - timestamp c in
      if tolerance <? distance
      then Raise (CandleSampleUnavailable pair_id when tolerance)
      else Ok (close c, distance)
  end.

(** Modelled from the spec: [Candle.generate_synthetic_sample(pair_id,
    timestamp, price)] of candle.py. Section 8 reads the given price back
    both as [open] and as [close] of the generated candle; the four prices
    are the given one, and the volume, which no scenario reads, is zero. *)
Definition generate_synthetic_sample (pair_id : Z) (timestamp : Timestamp)
    (price : float) : Candle :=
  {| pair_id := pair_id; timestamp := timestamp;
     open := price; high := price; low := price; close := price;
     volume := 0 |}.

(** The table of the fixture [synthetic_candles] of test_candle_data.py. *)
Definition synthetic_candles : list Candle :=
  [ generate_synthetic_sample 1 date_2020_01_01 100.10;
    generate_synthetic_sample 1 date_2020_02_01 100.50;
    generate_synthetic_sample 1 date_2020_03_01 101.10;
    generate_synthetic_sample 1 date_2020_09_01 101.80 ].

(** The universe that the tests build from the fixture. *)
Definition synthetic_universe : GroupedCandleUniverse :=
  __init__ synthetic_candles.

End candle.

(** ** tradingstrategy/direct_feed/timeframe.py (not among the sources) *)

Module timeframe.

(** Modelled from the spec: [Timeframe] of timeframe.py, which is not
    among the sources. Section 3: a bucket width, as a duration and an
    offset, with the duration positive. *)
Record Timeframe : Type := {
  duration : Timedelta;
  offset : Timedelta;
}.

(** Modelled from the spec, section 4.2: no error conditions beyond
    rejecting non-positive durations at construction. *)
Definition __init__ (duration offset : Timedelta) : result Timeframe :=
  if duration <=? 0 then Raise (ValueError "duration must be positive")
  else Ok {| duration := duration; offset := offset |}.

(** Modelled from the spec, section 4.2:
    [bucket_start = floor((instant - offset) / duration) * duration + offset]. *)
Definition bucket_start (self : Timeframe) (instant : Timestamp) : Timestamp :=
  (instant - offset self) / duration self * duration self + offset self.

End timeframe.

(** ** tradingstrategy/direct_feed/ohlcv_aggregate.py (not among the sources) *)

Module ohlcv_aggregate.
Import pandas candle timeframe.

(** Modelled from the spec: a row of the trade table. Section 4.3: each
    trade has at least [pair_id], [timestamp], [price] and [amount]
    (signed); the optional columns are left out. *)
Record Trade : Type := {
  trade_pair_id : Z;
  trade_timestamp : Timestamp;
  price : float;
  amount : float;
}.

(** Stable sort of the trades by timestamp, by insertion. *)
Fixpoint insert_trade (t : Trade) (sorted : list Trade) : list Trade :=
  match sorted with
  | [] => [t]
  | u :: rest =>
      if trade_timestamp t <? trade_timestamp u then t :: sorted
      else u :: insert_trade t rest
  end.

Definition sort_trades (df : list Trade) : list Trade :=
  foldl (fun sorted t => insert_trade t sorted) [] df.

Definition float_max (a b : float) : float := if PrimFloat.ltb a b then b else a.
Definition float_min (a b : float) : float := if PrimFloat.ltb b a then b else a.

(** The candle of a bucket that holds the single trade [t]. *)
Definition first_trade (bucket : Timestamp) (t : Trade) : Candle :=
  {| pair_id := trade_pair_id t; timestamp := bucket;
     open := price t; high := price t; low := price t; close := price t;
     volume := PrimFloat.abs (amount t) |}.

(** The candle [c] with one later trade [t] of its bucket added. *)
Definition next_trade (c : Candle) (t : Trade) : Candle :=
  {| pair_id := pair_id c; timestamp := timestamp c;
     open := open c;
     high := float_max (high c) (price t);
     low := float_min (low c) (price t);
     close := price t;
     volume := PrimFloat.add (volume c) (PrimFloat.abs (amount t)) |}.

(** Adds the trade to the candle of its pair and bucket, or starts that
    candle after the ones present. *)
Fixpoint add_trade (tf : Timeframe) (t : Trade) (candles : DataFrame Candle)
    : DataFrame Candle :=
  let bucket := bucket_start tf (trade_timestamp t) in
  match candles with
  | [] => [(bucket, first_trade bucket t)]
  | (label, c) :: rest =>
      if (label =? bucket) && (pair_id c =? trade_pair_id t)
      then (label, next_trade c t) :: rest
      else (label, c) :: add_trade tf t rest
  end.

(** Modelled from the spec: [ohlcv_resample_trades(df, timeframe)] of
    ohlcv_aggregate.py. Section 4.3: the trades are sorted by timestamp
    first; the output has one row per (pair_id, bucket) that holds a
    trade, with [open] and [close] the prices of the first and the last
    trade of the bucket, [high] and [low] the greatest and the least price
    and [volume] the sum of the absolute trade sizes. The rows are indexed
    by the start of their bucket. *)
Definition ohlcv_resample_trades (df : list Trade) (timeframe : Timeframe)
    : DataFrame Candle :=
  foldl (fun candles t => add_trade timeframe t candles) [] (sort_trades df).

(** Modelled from the spec: [get_feed_for_pair(table, pair_id)] of
    ohlcv_aggregate.py. Section 4.3: filters a candle table down to one
    pair's rows, preserving the order; for an absent pair the spec leaves
    the choice between failing and an empty result, and this model returns
    the empty table. *)
Definition get_feed_for_pair (df : DataFrame Candle) (pair : Z)
    : DataFrame Candle :=
  List.filter (fun r => pair_id r.2 =? pair) df.

End ohlcv_aggregate.

(** ** The direct feed put together *)

(** The imports of candle_feed.py, bound to the models above. *)
#[export] Instance direct_feed : candle_feed.Imports := {|
  candle_feed.PairId := Z;
  candle_feed.Timeframe := timeframe.Timeframe;
  candle_feed.TradeTable := list ohlcv_aggregate.Trade;
  candle_feed.CandleRow := candle.Candle;
  candle_feed.ohlcv_resample_trades :=
    fun df tf => Ok (ohlcv_aggregate.ohlcv_resample_trades df tf);
  candle_feed.get_feed_for_pair :=
    fun df pair => Ok (ohlcv_aggregate.get_feed_for_pair df pair);
|}.

(** One-hour candles. *)
Definition hourly : timeframe.Timeframe :=
  {| timeframe.duration := hours 1; timeframe.offset := 0 |}.

(** Instants of the first of January 2020. *)
Definition at_09_30 : Timestamp := date_2020_01_01 + hours 9 + minutes 30.
Definition at_10_00 : Timestamp := date_2020_01_01 + hours 10.
Definition at_10_05 : Timestamp := date_2020_01_01 + hours 10 + minutes 5.
Definition at_10_20 : Timestamp := date_2020_01_01 + hours 10 + minutes 20.
Definition at_10_30 : Timestamp := date_2020_01_01 + hours 10 + minutes 30.
Definition at_10_40 : Timestamp := date_2020_01_01 + hours 10 + minutes 40.

(** Three trades of pair 1 within the hour that starts at ten. *)
Definition trade_10_05 : ohlcv_aggregate.Trade :=
  {| ohlcv_aggregate.trade_pair_id := 1;
     ohlcv_aggregate.trade_timestamp := at_10_05;
     ohlcv_aggregate.price := 100.5;
     ohlcv_aggregate.amount := 2 |}.

Definition trade_10_20 : ohlcv_aggregate.Trade :=
  {| ohlcv_aggregate.trade_pair_id := 1;
     ohlcv_aggregate.trade_timestamp := at_10_20;
     ohlcv_aggregate.price := 101;
     ohlcv_aggregate.amount := (-1) |}.

Definition trade_10_40 : ohlcv_aggregate.Trade :=
  {| ohlcv_aggregate.trade_pair_id := 1;
     ohlcv_aggregate.trade_timestamp := at_10_40;
     ohlcv_aggregate.price := 99.5;
     ohlcv_aggregate.amount := 4 |}.

(** The candle of that hour when [trade_10_05] is its only trade. *)
Definition candle_10_00 : candle.Candle :=
  {| candle.pair_id := 1; candle.timestamp := at_10_00;
     candle.open := 100.5; candle.high := 100.5;
     candle.low := 100.5; candle.close := 100.5;
     candle.volume := 2 |}.

(** The candle of that hour from [trade_10_05] and [trade_10_20]. *)
Definition candle_10_00_recomputed : candle.Candle :=
  {| candle.pair_id := 1; candle.timestamp := at_10_00;
     candle.open := 100.5; candle.high := 101;
     candle.low := 100.5; candle.close := 101;
     candle.volume := 3 |}.

(** The candle of that hour when [trade_10_40] is its only trade. *)
Definition candle_10_00_late : candle.Candle :=
  {| candle.pair_id := 1; candle.timestamp := at_10_00;
     candle.open := 99.5; candle.high := 99.5;
     candle.low := 99.5; candle.close := 99.5;
     candle.volume := 4 |}.

(** A feed of hourly candles for pair 1, as constructed. *)
Definition fresh_feed : candle_feed.CandleFeed :=
  candle_feed.__init__ [1] hourly.

(** The feed once it holds [candle_10_00], applied in cycle 1. *)
Definition feed_10_00 : candle_feed.CandleFeed :=
  {| candle_feed.timeframe := hourly;
     candle_feed.candle_df := [(at_10_00, candle_10_00)];
     candle_feed.last_cycle := 1 |}.

(** The feed with two rows labelled ten o'clock, after the given cycle. *)
Definition feed_two_rows (second : candle.Candle) (cycle : Z)
    : candle_feed.CandleFeed :=
  {| candle_feed.timeframe := hourly;
     candle_feed.candle_df := [(at_10_00, candle_10_00); (at_10_00, second)];
     candle_feed.last_cycle := cycle |}.

(** Cycle 1: the trade of 10:05, the window starting on the hour. *)
Definition delta_cycle_1 : candle_feed.TradeDelta :=
  {| candle_feed.cycle := 1;
     candle_feed.start_ts := at_10_00;
     candle_feed.trades := [trade_10_05] |}.

(** Cycle 2: the same window again, now with a second trade in it. *)
Definition delta_cycle_2 : candle_feed.TradeDelta :=
  {| candle_feed.cycle := 2;
     candle_feed.start_ts := at_10_00;
     candle_feed.trades := [trade_10_05; trade_10_20] |}.

(** A window that starts with its first trade, within the hour. *)
Definition delta_from_10_05 : candle_feed.TradeDelta :=
  {| candle_feed.cycle := 1;
     candle_feed.start_ts := at_10_05;
     candle_feed.trades := [trade_10_05] |}.

(** A window that starts before the hour of its trade. *)
Definition delta_from_09_30 : candle_feed.TradeDelta :=
  {| candle_feed.cycle := 1;
     candle_feed.start_ts := at_09_30;
     candle_feed.trades := [trade_10_05] |}.

(** A later window of the same hour. *)
Definition delta_from_10_30 : candle_feed.TradeDelta :=
  {| candle_feed.cycle := 2;
     candle_feed.start_ts := at_10_30;
     candle_feed.trades := [trade_10_40] |}.

(** A window after the hour, in which nothing was traded. *)
Definition delta_no_trades : candle_feed.TradeDelta :=
  {| candle_feed.cycle := 5;
     candle_feed.start_ts := at_10_30;
     candle_feed.trades := [] |}.

(** A correction: the window from half past nine on, with both trades of
    the hour of ten. *)
Definition delta_correction : candle_feed.TradeDelta :=
  {| candle_feed.cycle := 2;
     candle_feed.start_ts := at_09_30;
     candle_feed.trades := [trade_10_05; trade_10_20] |}.

(** The feed that holds the recomputed candle only, after cycle 2. *)
Definition feed_recomputed : candle_feed.CandleFeed :=
  {| candle_feed.timeframe := hourly;
     candle_feed.candle_df := [(at_10_00, candle_10_00_recomputed)];
     candle_feed.last_cycle := 2 |}.

(** The candle of the hour of eleven, and a feed that holds the hours of
    ten and of eleven. *)
Definition at_11_00 : Timestamp := date_2020_01_01 + hours 11.
Definition at_11_30 : Timestamp := date_2020_01_01 + hours 11 + minutes 30.

Definition candle_11_00 : candle.Candle :=
  {| candle.pair_id := 1; candle.timestamp := at_11_00;
     candle.open := 101; candle.high := 101;
     candle.low := 101; candle.close := 101;
     candle.volume := 1 |}.

Definition feed_two_hours : candle_feed.CandleFeed :=
  {| candle_feed.timeframe := hourly;
     candle_feed.candle_df := [(at_10_00, candle_10_00);
                               (at_11_00, candle_11_00)];
     candle_feed.last_cycle := 2 |}.

(** A window from half past eleven on that carries a trade of the hour of
    ten, and the feed it leaves: the hour of ten comes after the hour of
    eleven. *)
Definition delta_late_trade : candle_feed.TradeDelta :=
  {| candle_feed.cycle := 3;
     candle_feed.start_ts := at_11_30;
     candle_feed.trades := [trade_10_05] |}.

Definition feed_out_of_order : candle_feed.CandleFeed :=
  {| candle_feed.timeframe := hourly;
     candle_feed.candle_df := [(at_10_00, candle_10_00);
                               (at_11_00, candle_11_00);
                               (at_10_00, candle_10_00)];
     candle_feed.last_cycle := 3 |}.

(** Trades of the hours of eleven and of twelve, and the candle of the
    hour of twelve. *)
Definition at_12_00 : Timestamp := date_2020_01_01 + hours 12.

Definition trade_11_10 : ohlcv_aggregate.Trade :=
  {| ohlcv_aggregate.trade_pair_id := 1;
     ohlcv_aggregate.trade_timestamp := at_11_00 + minutes 10;
     ohlcv_aggregate.price := 101;
     ohlcv_aggregate.amount := 1 |}.

Definition trade_12_15 : ohlcv_aggregate.Trade :=
  {| ohlcv_aggregate.trade_pair_id := 1;
     ohlcv_aggregate.trade_timestamp := at_12_00 + minutes 15;
     ohlcv_aggregate.price := 102;
     ohlcv_aggregate.amount := 3 |}.

Definition candle_12_00 : candle.Candle :=
  {| candle.pair_id := 1; candle.timestamp := at_12_00;
     candle.open := 102; candle.high := 102;
     candle.low := 102; candle.close := 102;
     candle.volume := 3 |}.

(** Cycle 2 on the hour of eleven, and a later correction from half past
    ten on that also brings the hour of twelve. *)
Definition delta_hour_11 : candle_feed.TradeDelta :=
  {| candle_feed.cycle := 2;
     candle_feed.start_ts := at_11_00;
     candle_feed.trades := [trade_11_10] |}.

Definition delta_two_hours : candle_feed.TradeDelta :=
  {| candle_feed.cycle := 3;
     candle_feed.start_ts := at_10_30;
     candle_feed.trades := [trade_11_10; trade_12_15] |}.

Definition feed_three_hours : candle_feed.CandleFeed :=
  {| candle_feed.timeframe := hourly;
     candle_feed.candle_df := [(at_10_00, candle_10_00);
                               (at_11_00, candle_11_00);
                               (at_12_00, candle_12_00)];
     candle_feed.last_cycle := 3 |}.

(* ===================================================================== *)
(** * Part II. Theorems                                                    *)
(* ===================================================================== *)

(** Arithmetic on instants and durations is integer arithmetic. *)
Ltac tlia := unfold Timestamp, Timedelta in *; cbn [fst snd] in *; lia.

(** ** pandas: what [truncate] keeps *)

Section PandasFacts.
Import pandas.
Context {Row : Type}.
Implicit Types (df : DataFrame Row) (ax : list Timestamp) (a : Timestamp).

Lemma increasing_cons x ax :
  is_monotonic_increasing (x :: ax) = true ->
  is_monotonic_increasing ax = true /\ Forall (fun y => x <= y) ax.
Proof.
  revert x. induction ax as [|y ax IH]; intros x Hx.
  - split; [reflexivity | constructor].
  - cbn [is_monotonic_increasing] in Hx.
    apply andb_true_iff in Hx as [Hxy Hrest]. apply Z.leb_le in Hxy.
    split; [exact Hrest |].
    destruct (IH _ Hrest) as [_ Hall].
    constructor; [exact Hxy |].
    eapply Forall_impl; [exact Hall | cbn; intros; lia].
Qed.

Lemma decreasing_cons x ax :
  is_monotonic_decreasing (x :: ax) = true ->
  is_monotonic_decreasing ax = true /\ Forall (fun y => y <= x) ax.
Proof.
  revert x. induction ax as [|y ax IH]; intros x Hx.
  - split; [reflexivity | constructor].
  - cbn [is_monotonic_decreasing] in Hx.
    apply andb_true_iff in Hx as [Hxy Hrest]. apply Z.leb_le in Hxy.
    split; [exact Hrest |].
    destruct (IH _ Hrest) as [_ Hall].
    constructor; [exact Hxy |].
    eapply Forall_impl; [exact Hall | cbn; intros; lia].
Qed.

(** Past the first row that fails a test, no row of an index sorted
    against the test passes it: the leading rows are the passing rows. *)
Lemma filter_none {A} (p : A -> bool) (l : list A) :
  Forall (fun x => p x = false) l -> List.filter p l = [].
Proof.
  induction 1 as [|x l Hx _ IH]; [reflexivity |].
  cbn. rewrite Hx. exact IH.
Qed.

Lemma filter_all {A} (p : A -> bool) (l : list A) :
  Forall (fun x => p x = true) l -> List.filter p l = l.
Proof.
  induction 1 as [|x l Hx _ IH]; [reflexivity |].
  cbn. rewrite Hx, IH. reflexivity.
Qed.

Lemma take_while_increasing df a :
  is_monotonic_increasing (index df) = true ->
  take_while (fun r => r.1 <=? a) df = List.filter (fun r => r.1 <=? a) df.
Proof.
  induction df as [|[t r] df IH]; intros Hinc; [reflexivity |].
  change (index ((t, r) :: df)) with (t :: index df) in Hinc.
  apply increasing_cons in Hinc as [Hrest Hall].
  cbn [take_while List.filter fst].
  destruct (t <=? a) eqn:Hta.
  - rewrite IH by exact Hrest. reflexivity.
  - symmetry. apply filter_none.
    apply Z.leb_gt in Hta.
    unfold index in Hall. rewrite List.Forall_map in Hall.
    eapply Forall_impl; [exact Hall |].
    cbn. intros r' Hr'. apply Z.leb_gt. tlia.
Qed.

Lemma drop_while_decreasing df a :
  is_monotonic_decreasing (index df) = true ->
  drop_while (fun r => a <? r.1) df = List.filter (fun r => r.1 <=? a) df.
Proof.
  induction df as [|[t r] df IH]; intros Hdec; [reflexivity |].
  change (index ((t, r) :: df)) with (t :: index df) in Hdec.
  apply decreasing_cons in Hdec as [Hrest Hall].
  cbn [drop_while List.filter fst].
  destruct (a <? t) eqn:Hat.
  - apply Z.ltb_lt in Hat.
    assert ((t <=? a) = false) as -> by (apply Z.leb_gt; lia).
    apply IH, Hrest.
  - apply Z.ltb_ge in Hat.
    assert ((t <=? a) = true) as -> by (apply Z.leb_le; lia).
    f_equal. symmetry. apply filter_all.
    unfold index in Hall. rewrite List.Forall_map in Hall.
    eapply Forall_impl; [exact Hall |].
    cbn. intros r' Hr'. apply Z.leb_le. tlia.
Qed.

(** An index that rises and falls at once holds one label only. *)
Lemma both_ways_constant x ax :
  is_monotonic_increasing (x :: ax) = true ->
  is_monotonic_decreasing (x :: ax) = true ->
  Forall (fun y => y = x) ax.
Proof.
  intros Hinc Hdec.
  apply increasing_cons in Hinc as [_ Hup].
  apply decreasing_cons in Hdec as [_ Hdown].
  rewrite List.Forall_forall in *. intros y Hy.
  specialize (Hup y Hy). specialize (Hdown y Hy). cbn in *. lia.
Qed.

Lemma nunique_constant x ax :
  Forall (fun y => y = x) ax -> (nunique (x :: ax) <= 1)%nat.
Proof.
  intros Hall. unfold nunique.
  assert (Hin : forall y, y ∈ remove_dups (x :: ax) -> y = x).
  { intros y Hy. rewrite elem_of_remove_dups in Hy.
    apply elem_of_cons in Hy as [-> | Hy]; [reflexivity |].
    rewrite List.Forall_forall in Hall. apply Hall.
    apply list_elem_of_In. exact Hy. }
  pose proof (NoDup_remove_dups (x :: ax)) as Hnd.
  destruct (remove_dups (x :: ax)) as [|u [|v l]]; cbn; try lia.
  exfalso.
  assert (u = x) by (apply Hin; left).
  assert (v = x) by (apply Hin; right; left).
  subst. apply NoDup_cons in Hnd as [Hnot _]. apply Hnot. left.
Qed.

Lemma constant_increasing x ax :
  Forall (fun y => y = x) ax -> is_monotonic_increasing (x :: ax) = true.
Proof.
  revert x. induction ax as [|y ax IH]; intros x Hall; [reflexivity |].
  apply Forall_cons in Hall as [-> Hall].
  cbn [is_monotonic_increasing]. rewrite Z.leb_refl. cbn. apply IH, Hall.
Qed.

Lemma constant_of_nunique x ax :
  (nunique (x :: ax) <= 1)%nat -> Forall (fun y => y = x) ax.
Proof.
  unfold nunique. intros Hlen.
  assert (Hx : x ∈ remove_dups (x :: ax)) by (rewrite elem_of_remove_dups; left).
  rewrite List.Forall_forall. intros y Hy.
  assert (Hy' : y ∈ remove_dups (x :: ax)).
  { rewrite elem_of_remove_dups. right. apply list_elem_of_In. exact Hy. }
  destruct (remove_dups (x :: ax)) as [|u [|v l]]; cbn in Hlen; try lia.
  - inversion Hx.
  - apply list_elem_of_singleton in Hx, Hy'. congruence.
Qed.

(** On a sorted index, [truncate(after=a)] returns the rows whose label
    is at most [a], in their order: the row labelled [a] itself stays. *)
Lemma truncate_after_sorted df a :
  is_sorted (index df) = true ->
  truncate df None (Some a) = Ok (List.filter (fun r => r.1 <=? a) df).
Proof.
  unfold is_sorted, truncate. intros Hsorted.
  destruct (is_monotonic_increasing (index df)) eqn:Hinc;
    destruct (is_monotonic_decreasing (index df)) eqn:Hdec;
    try discriminate; cbn [negb andb].
  - (* both ways: no swap, since the index has at most one label *)
    assert ((1 <? length (index df))%nat && true && (1 <? nunique (index df))%nat
            = false) as ->.
    { destruct (index df) as [|x ax] eqn:Hax; [reflexivity |].
      pose proof (nunique_constant x ax (both_ways_constant x ax Hinc Hdec)).
      apply andb_false_iff. right. apply Nat.ltb_ge. lia. }
    unfold loc_slice. rewrite Hinc. f_equal. apply take_while_increasing, Hinc.
  - rewrite andb_false_r. cbn [andb].
    unfold loc_slice. rewrite Hinc. f_equal. apply take_while_increasing, Hinc.
  - assert ((1 <? length (index df))%nat && true && (1 <? nunique (index df))%nat
            = true) as ->.
    { destruct (index df) as [|x ax] eqn:Hax; [discriminate |].
      destruct (Nat.ltb_spec 1 (nunique (x :: ax))) as [Hn | Hn].
      - destruct ax; [discriminate | reflexivity].
      - rewrite (constant_increasing x ax (constant_of_nunique x ax Hn)) in Hinc.
        discriminate. }
    unfold loc_slice. rewrite Hinc. f_equal. apply drop_while_decreasing, Hdec.
Qed.

Lemma truncate_after_unsorted df a :
  is_sorted (index df) = false ->
  truncate df None (Some a) = Raise (ValueError "truncate requires a sorted index").
Proof.
  unfold is_sorted, truncate. intros Hsorted.
  apply orb_false_iff in Hsorted as [-> ->]. reflexivity.
Qed.

Lemma truncate_after_inv df a cropped :
  truncate df None (Some a) = Ok cropped ->
  is_sorted (index df) = true /\
  cropped = List.filter (fun r => r.1 <=? a) df.
Proof.
  intros Htr. destruct (is_sorted (index df)) eqn:Hsorted.
  - rewrite truncate_after_sorted in Htr by exact Hsorted.
    injection Htr as <-. split; reflexivity.
  - rewrite truncate_after_unsorted in Htr by exact Hsorted. discriminate.
Qed.

End PandasFacts.

(** ** CandleFeed *)

Section CandleFeedFacts.
Import pandas candle_feed.
Context `{Imports}.
Implicit Types (self : CandleFeed) (delta : TradeDelta).

Lemma concat_pair {Row} (a b : DataFrame Row) : concat [a; b] = a ++ b.
Proof. unfold concat. cbn. rewrite app_nil_r. reflexivity. Qed.

(** [apply_delta] returns exactly when the index of the owned table is
    sorted and the resampling returns; the new table is then the kept
    rows followed by the resampled candles. *)
Lemma apply_delta_returns self delta candles :
  is_sorted (index (candle_df self)) = true ->
  ohlcv_resample_trades (trades delta) (timeframe self) = Ok candles ->
  apply_delta self delta =
    Ok {| timeframe := timeframe self;
          candle_df := kept_rows self delta ++ candles;
          last_cycle := cycle delta |}.
Proof.
  intros Hsorted Hresample. unfold apply_delta.
  rewrite truncate_after_sorted by exact Hsorted.
  cbn [mbind result_bind]. rewrite Hresample.
  cbn [mbind result_bind]. rewrite concat_pair. reflexivity.
Qed.

Lemma apply_delta_inv self delta self' :
  apply_delta self delta = Ok self' ->
  exists candles,
    is_sorted (index (candle_df self)) = true /\
    ohlcv_resample_trades (trades delta) (timeframe self) = Ok candles /\
    self' = {| timeframe := timeframe self;
               candle_df := kept_rows self delta ++ candles;
               last_cycle := cycle delta |}.
Proof.
  unfold apply_delta. intros Happly.
  destruct (truncate (candle_df self) None (Some (start_ts delta)))
    as [cropped|e] eqn:Htr; [| discriminate].
  apply truncate_after_inv in Htr as [Hsorted ->].
  cbn [mbind result_bind] in Happly.
  destruct (ohlcv_resample_trades (trades delta) (timeframe self))
    as [candles|e] eqn:Hresample; [| discriminate].
  cbn [mbind result_bind] in Happly. rewrite concat_pair in Happly.
  injection Happly as <-.
  exists candles. repeat split. exact Hsorted.
Qed.

Lemma filter_app_none {A} (p : A -> bool) (l k : list A) :
  Forall (fun x => p x = false) k ->
  List.filter p (l ++ k) = List.filter p l.
Proof.
  intros Hk. rewrite List.filter_app, (filter_none p k Hk), app_nil_r.
  reflexivity.
Qed.

Lemma filter_twice {A} (p : A -> bool) (l : list A) :
  List.filter p (List.filter p l) = List.filter p l.
Proof.
  induction l as [|x l IH]; [reflexivity |].
  cbn. destruct (p x) eqn:Hx; cbn; rewrite ?Hx, IH; reflexivity.
Qed.

End CandleFeedFacts.

Section CandleFeedClaims.
Import pandas candle_feed.
Context `{Imports}.
Implicit Types (self : CandleFeed) (delta : TradeDelta).

(** C4, as amended. When every resampled candle of [delta] is labelled
    strictly after [delta.start_ts], and the table left by a first
    [apply_delta(delta)] has a sorted index, a second [apply_delta(delta)]
    returns and leaves the feed, table and [last_cycle], as the first
    left it. *)
Theorem apply_delta_twice self delta self1 candles :
  apply_delta self delta = Ok self1 ->
  ohlcv_resample_trades (trades delta) (timeframe self) = Ok candles ->
  Forall (fun r => start_ts delta < r.1) candles ->
  is_sorted (index (candle_df self1)) = true ->
  apply_delta self1 delta = Ok self1.
Proof.
  intros Hfirst Hresample Hafter Hsorted.
  apply apply_delta_inv in Hfirst as (candles' & _ & Hresample' & ->).
  rewrite Hresample in Hresample'. injection Hresample' as <-.
  rewrite (apply_delta_returns _ delta candles Hsorted Hresample).
  f_equal. cbn [timeframe candle_df last_cycle]. f_equal.
  unfold kept_rows at 1. cbn [candle_df].
  rewrite filter_app_none.
  - unfold kept_rows. rewrite filter_twice. reflexivity.
  - eapply Forall_impl; [exact Hafter |].
    cbn. intros r Hr. apply Z.leb_gt. exact Hr.
Qed.

(** C5, as amended. [apply_delta] compares no labels: whenever the
    truncation and the resampling return, it returns too, with the
    truncated table followed by the resampled candles, and a timestamp
    present in both is then present twice in the new table. *)
Theorem apply_delta_keeps_duplicates self delta cropped candles t :
  truncate (candle_df self) None (Some (start_ts delta)) = Ok cropped ->
  ohlcv_resample_trades (trades delta) (timeframe self) = Ok candles ->
  t ∈ index cropped ->
  t ∈ index candles ->
  exists self',
    apply_delta self delta = Ok self' /\
    candle_df self' = cropped ++ candles /\
    ~ NoDup (index (candle_df self')).
Proof.
  intros Htr Hresample Hleft Hright.
  eexists. unfold apply_delta. rewrite Htr. cbn [mbind result_bind].
  rewrite Hresample. cbn [mbind result_bind]. rewrite concat_pair.
  split; [reflexivity |]. cbn [candle_df]. split; [reflexivity |].
  unfold index in *. rewrite map_app. intros Hnd.
  apply NoDup_app in Hnd as (_ & Hdisjoint & _).
  exact (Hdisjoint t Hleft Hright).
Qed.

(** C7. [apply_delta] returns whenever the index of the owned table is
    sorted and the resampling returns, and whenever it returns, the
    feed's [last_cycle] is [delta.cycle]. *)
Theorem apply_delta_last_cycle self delta :
  (is_sorted (index (candle_df self)) = true ->
   is_ok (ohlcv_resample_trades (trades delta) (timeframe self)) = true ->
   is_ok (apply_delta self delta) = true) /\
  (forall self', apply_delta self delta = Ok self' ->
                 last_cycle self' = cycle delta).
Proof.
  split.
  - intros Hsorted Hresample.
    destruct (ohlcv_resample_trades (trades delta) (timeframe self))
      as [candles|e] eqn:Hr; [| discriminate].
    rewrite (apply_delta_returns self delta candles Hsorted Hr). reflexivity.
  - intros self' Happly.
    apply apply_delta_inv in Happly as (candles & _ & _ & ->). reflexivity.
Qed.

(** C9. The constructor does not keep its [pairs] argument: feeds built
    from any two lists of pairs and one timeframe are the same feed, and
    so, under any one sequence of calls of [apply_delta] and
    [get_candles_by_pair], every call returns or raises the same and the
    feeds end with the same table and the same [last_cycle]. *)
Theorem pairs_argument_unobservable (pairs1 pairs2 : list PairId)
    (tf : Timeframe) (calls : list call) :
  __init__ pairs1 tf = __init__ pairs2 tf /\
  (run (__init__ pairs1 tf) calls).1 = (run (__init__ pairs2 tf) calls).1 /\
  candle_df (run (__init__ pairs1 tf) calls).2
    = candle_df (run (__init__ pairs2 tf) calls).2 /\
  last_cycle (run (__init__ pairs1 tf) calls).2
    = last_cycle (run (__init__ pairs2 tf) calls).2.
Proof.
  assert (Hsame : __init__ pairs1 tf = __init__ pairs2 tf)
    by (unfold __init__; reflexivity).
  rewrite Hsame. repeat split.
Qed.

(** C10. A feed as constructed has an empty table and [last_cycle] 0, and
    the table after its first [apply_delta(delta)] is
    [ohlcv_resample_trades(delta.trades, timeframe)]; the call raises
    only what the resampling raises. *)
Theorem fresh_feed_first_delta (pairs : list PairId) (tf : Timeframe) delta :
  candle_df (__init__ pairs tf) = [] /\
  last_cycle (__init__ pairs tf) = 0 /\
  candle_df <$> apply_delta (__init__ pairs tf) delta
    = ohlcv_resample_trades (trades delta) tf.
Proof.
  split; [reflexivity |]. split; [reflexivity |].
  unfold apply_delta, __init__. cbn [candle_df timeframe].
  rewrite truncate_after_sorted by reflexivity.
  cbn [mbind result_bind List.filter pandas.empty].
  destruct (ohlcv_resample_trades (trades delta) tf) as [candles|e];
    cbn [mbind result_bind fmap result_fmap]; [| reflexivity].
  rewrite concat_pair. reflexivity.
Qed.

End CandleFeedClaims.

(** ** CandleFeed on the modelled direct feed *)

Section CandleFeedExamples.
Import pandas candle_feed.

(** The first cycle on a fresh feed leaves the one candle of ten o'clock. *)
Example first_cycle : apply_delta fresh_feed delta_cycle_1 = Ok feed_10_00.
Proof. vm_compute. reflexivity. Qed.

(** C1, on the code. The feed holds the candle of ten o'clock, and cycle 2
    reports the window from ten o'clock on, with a second trade in that
    hour. The truncation step keeps the row labelled [delta.start_ts]
    instead of discarding it, so the kept rows include one that is not
    strictly before [start_ts], and the new table holds the stale candle
    next to the recomputed one. *)
Theorem apply_delta_keeps_row_at_start_ts :
  truncate (candle_df feed_10_00) None (Some (start_ts delta_cycle_2))
    = Ok [(at_10_00, candle_10_00)] /\
  start_ts delta_cycle_2 = at_10_00 /\
  apply_delta feed_10_00 delta_cycle_2
    = Ok (feed_two_rows candle_10_00_recomputed 2).
Proof. repeat split; vm_compute; reflexivity. Qed.

(** C4, as stated, fails. A window that starts within the hour of its
    trade: the candle of that hour is labelled before [start_ts], the
    second application keeps it and appends it once more. *)
Lemma apply_delta_twice_differs :
  exists once twice,
    apply_delta fresh_feed delta_from_10_05 = Ok once /\
    apply_delta once delta_from_10_05 = Ok twice /\
    candle_df once = [(at_10_00, candle_10_00)] /\
    candle_df twice = [(at_10_00, candle_10_00); (at_10_00, candle_10_00)] /\
    candle_df twice <> candle_df once.
Proof.
  exists feed_10_00.
  exists (feed_two_rows candle_10_00 1).
  repeat split; try (vm_compute; reflexivity).
  cbn [candle_df feed_10_00]. intros Heq.
  apply (f_equal (@length _)) in Heq. discriminate Heq.
Qed.

(** The amended C4 at a window that starts before the hour of its trade. *)
Lemma apply_delta_twice_witness :
  apply_delta fresh_feed delta_from_09_30 = Ok feed_10_00 /\
  apply_delta feed_10_00 delta_from_09_30 = Ok feed_10_00.
Proof.
  assert (Hfirst : apply_delta fresh_feed delta_from_09_30 = Ok feed_10_00)
    by (vm_compute; reflexivity).
  split; [exact Hfirst |].
  apply (apply_delta_twice fresh_feed delta_from_09_30 feed_10_00
           [(at_10_00, candle_10_00)] Hfirst).
  - vm_compute. reflexivity.
  - repeat constructor.
  - reflexivity.
Defined.

(** C5, as stated, fails. The feed holds the candle of ten o'clock, before
    the window, and the trade of the window falls into the same hour: the
    call returns, and the table has two rows labelled ten o'clock. *)
Lemma apply_delta_overlap_returns :
  truncate (candle_df feed_10_00) None (Some (start_ts delta_from_10_30))
    = Ok [(at_10_00, candle_10_00)] /\
  ohlcv_resample_trades (trades delta_from_10_30) (timeframe feed_10_00)
    = Ok [(at_10_00, candle_10_00_late)] /\
  apply_delta feed_10_00 delta_from_10_30
    = Ok (feed_two_rows candle_10_00_late 2) /\
  index (candle_df (feed_two_rows candle_10_00_late 2)) = [at_10_00; at_10_00].
Proof. repeat split; vm_compute; reflexivity. Qed.

(** The amended C5 at that input. *)
Lemma apply_delta_keeps_duplicates_witness :
  exists self',
    apply_delta feed_10_00 delta_from_10_30 = Ok self' /\
    candle_df self'
      = [(at_10_00, candle_10_00)] ++ [(at_10_00, candle_10_00_late)] /\
    ~ NoDup (index (candle_df self')).
Proof.
  apply (apply_delta_keeps_duplicates feed_10_00 delta_from_10_30
           [(at_10_00, candle_10_00)] [(at_10_00, candle_10_00_late)]
           at_10_00).
  - vm_compute. reflexivity.
  - vm_compute. reflexivity.
  - left.
  - left.
Defined.

(** C7 at the first cycle on a fresh feed. *)
Lemma apply_delta_last_cycle_witness :
  is_ok (apply_delta fresh_feed delta_cycle_1) = true /\
  last_cycle feed_10_00 = cycle delta_cycle_1.
Proof.
  destruct (apply_delta_last_cycle fresh_feed delta_cycle_1)
    as [Hreturns Hcycle].
  split.
  - apply Hreturns; reflexivity.
  - apply Hcycle. vm_compute. reflexivity.
Defined.

End CandleFeedExamples.

(** ** The chain registry *)

Section ChainFacts.
Import chain.

Lemma truthy_non_empty {K} `{Countable K} {V} (d : gmap K V) :
  truthy d = true <-> d <> ∅.
Proof.
  unfold truthy. rewrite negb_true_iff, Nat.eqb_neq.
  rewrite <- map_size_empty_iff. reflexivity.
Qed.

(** The first access on the packaged files fills both dictionaries: the
    slugs are those of the overrides, not those of the files. *)
Example first_access :
  _get_slug_map packaged at_import
    = (Ok {[ "ethereum" := 1; "binance" := 56; "polygon" := 137 ]},
       initialised) /\
  size (_chain_data initialised) = 3%nat.
Proof. split; vm_compute; reflexivity. Qed.

(** A first access that raises at the second chain leaves the first
    chain's data in place, so the guard lets the next access through
    with no slugs indexed. *)
Example failed_first_access :
  (_get_slug_map incomplete at_import).1 = Raise (ChainDataDoesNotExist 56) /\
  size (_chain_data (_get_slug_map incomplete at_import).2) = 1%nat /\
  (_get_slug_map incomplete (_get_slug_map incomplete at_import).2).1 = Ok ∅.
Proof. repeat split; vm_compute; reflexivity. Qed.

(** C8. Once [_chain_data] is non-empty, [_ensure_chain_data_lazy_init]
    returns at its guard and leaves both dictionaries as they are,
    whatever the files are by then; so [_get_chain_data] and
    [_get_slug_map] read the same dictionaries at every later access and
    leave them unchanged. *)
Theorem lazy_init_once (fs : FileSystem) (g : Globals) :
  _chain_data g <> ∅ ->
  _ensure_chain_data_lazy_init fs g = (Ok tt, g) /\
  (forall chain_id,
     _get_chain_data fs chain_id g
       = (match _chain_data g !! chain_id with
          | Some data => Ok data
          | None => Raise (KeyError (IntKey chain_id))
          end, g)) /\
  _get_slug_map fs g = (Ok (_slug_map g), g).
Proof.
  intros Hfilled. apply truthy_non_empty in Hfilled.
  assert (Hguard : _ensure_chain_data_lazy_init fs g = (Ok tt, g)).
  { unfold _ensure_chain_data_lazy_init, bind, read. rewrite Hfilled.
    reflexivity. }
  split; [exact Hguard |]. split.
  - intros chain_id. unfold _get_chain_data, bind at 1. rewrite Hguard.
    unfold bind, read. destruct (_chain_data g !! chain_id); reflexivity.
  - unfold _get_slug_map, bind. rewrite Hguard. reflexivity.
Qed.

(** C8 at the globals left by the first access, with the files gone. *)
Lemma lazy_init_once_witness :
  _ensure_chain_data_lazy_init
    {| chains_folder_exists := false; data_files := ∅ |} initialised
    = (Ok tt, initialised) /\
  _get_slug_map {| chains_folder_exists := false; data_files := ∅ |} initialised
    = (Ok (_slug_map initialised), initialised).
Proof.
  destruct (lazy_init_once
              {| chains_folder_exists := false; data_files := ∅ |} initialised)
    as (Hensure & _ & Hslug).
  - intros Hempty. apply (f_equal size) in Hempty.
    vm_compute in Hempty. discriminate Hempty.
  - split; [exact Hensure | exact Hslug].
Defined.

End ChainFacts.

(** ** The candle universe *)

Section CandleFacts.
Import candle.
Implicit Types (series : list Candle) (c d : Candle) (when : Timestamp).

Lemma ascending_cons c series :
  is_ascending (c :: series) = true ->
  is_ascending series = true /\
  Forall (fun d => timestamp c < timestamp d) series.
Proof.
  revert c. induction series as [|d series IH]; intros c Hc.
  - split; [reflexivity | constructor].
  - cbn [is_ascending] in Hc.
    apply andb_true_iff in Hc as [Hcd Hrest]. apply Z.ltb_lt in Hcd.
    split; [exact Hrest |].
    destruct (IH _ Hrest) as [_ Hall].
    constructor; [exact Hcd |].
    eapply Forall_impl; [exact Hall | cbn; intros; tlia].
Qed.

(** In an ascending series a timestamp names one row. *)
Lemma ascending_unique series c d :
  is_ascending series = true ->
  c ∈ series -> d ∈ series -> timestamp c = timestamp d -> c = d.
Proof.
  induction series as [|x series IH]; intros Hasc Hc Hd Heq.
  - inversion Hc.
  - apply ascending_cons in Hasc as [Hrest Hall].
    rewrite Forall_forall in Hall.
    apply elem_of_cons in Hc as [-> | Hc];
      apply elem_of_cons in Hd as [-> | Hd].
    + reflexivity.
    + specialize (Hall d Hd). cbn in Hall. tlia.
    + specialize (Hall c Hc). cbn in Hall. tlia.
    + exact (IH Hrest Hc Hd Heq).
Qed.

Lemma rightmost_cons when c series :
  rightmost_not_after when (c :: series) =
    if timestamp c <=? when then
      match rightmost_not_after when series with
      | Some d => Some d
      | None => Some c
      end
    else None.
Proof.
  unfold rightmost_not_after. cbn [pandas.take_while].
  destruct (timestamp c <=? when); [| reflexivity].
  apply last_cons.
Qed.

Lemma rightmost_none when series :
  is_ascending series = true ->
  rightmost_not_after when series = None ->
  forall d, d ∈ series -> when < timestamp d.
Proof.
  destruct series as [|c series]; intros Hasc Hnone d Hd.
  - inversion Hd.
  - rewrite rightmost_cons in Hnone.
    destruct (timestamp c <=? when) eqn:Hc.
    + destruct (rightmost_not_after when series); discriminate.
    + apply Z.leb_gt in Hc.
      apply ascending_cons in Hasc as [_ Hall].
      rewrite Forall_forall in Hall.
      apply elem_of_cons in Hd as [-> | Hd]; [exact Hc |].
      specialize (Hall d Hd). cbn in Hall. tlia.
Qed.

Lemma rightmost_none_intro when series :
  (forall d, d ∈ series -> when < timestamp d) ->
  rightmost_not_after when series = None.
Proof.
  destruct series as [|c series]; intros Hall; [reflexivity |].
  rewrite rightmost_cons.
  assert (when < timestamp c) as Hc by (apply Hall; left).
  apply Z.leb_gt in Hc. rewrite Hc. reflexivity.
Qed.

(** The candle found is a row at or before [when], and no row at or
    before [when] is later than it. *)
Lemma rightmost_some when series c :
  is_ascending series = true ->
  rightmost_not_after when series = Some c ->
  nearest_before when series c.
Proof.
  unfold nearest_before. revert c. induction series as [|x series IH]; intros c Hasc Hsome.
  - discriminate.
  - rewrite rightmost_cons in Hsome.
    destruct (timestamp x <=? when) eqn:Hx; [| discriminate].
    apply Z.leb_le in Hx.
    pose proof (ascending_cons _ _ Hasc) as [Hrest Hall].
    rewrite Forall_forall in Hall.
    destruct (rightmost_not_after when series) as [y|] eqn:Hy.
    + injection Hsome as <-.
      destruct (IH y Hrest eq_refl) as (Hin & Hle & Hmax).
      split; [right; exact Hin |]. split; [exact Hle |].
      intros d Hd Hdle. apply elem_of_cons in Hd as [-> | Hd].
      * specialize (Hall y Hin). cbn in Hall. tlia.
      * exact (Hmax d Hd Hdle).
    + injection Hsome as <-.
      split; [left |]. split; [exact Hx |].
      intros d Hd Hdle. apply elem_of_cons in Hd as [-> | Hd]; [tlia |].
      pose proof (rightmost_none when series Hrest Hy d Hd). tlia.
Qed.

Lemma rightmost_some_intro when series c :
  is_ascending series = true ->
  nearest_before when series c ->
  rightmost_not_after when series = Some c.
Proof.
  intros Hasc (Hin & Hle & Hmax).
  destruct (rightmost_not_after when series) as [y|] eqn:Hy.
  - destruct (rightmost_some when series y Hasc Hy) as (Hyin & Hyle & Hymax).
    f_equal. apply (ascending_unique series); try assumption.
    specialize (Hmax y Hyin Hyle). specialize (Hymax c Hin Hle). tlia.
  - pose proof (rightmost_none when series Hasc Hy c Hin). tlia.
Qed.

Lemma ascending_cons_intro c series :
  is_ascending series = true ->
  Forall (fun d => timestamp c < timestamp d) series ->
  is_ascending (c :: series) = true.
Proof.
  destruct series as [|d series]; intros Hasc Hall; [reflexivity |].
  cbn [is_ascending]. apply Forall_cons in Hall as [Hcd _].
  apply andb_true_iff. split; [apply Z.ltb_lt; exact Hcd | exact Hasc].
Qed.

Lemma elem_of_insert_by_timestamp c d series :
  d ∈ insert_by_timestamp c series <-> d = c \/ d ∈ series.
Proof.
  induction series as [|x series IH]; cbn [insert_by_timestamp].
  - rewrite list_elem_of_singleton, elem_of_nil. tauto.
  - destruct (timestamp c <? timestamp x).
    + rewrite elem_of_cons. reflexivity.
    + rewrite !elem_of_cons, IH. tauto.
Qed.

(** Sorting by insertion keeps a series ascending as long as the new row
    brings a new timestamp. *)
Lemma insert_by_timestamp_ascending c series :
  is_ascending series = true ->
  Forall (fun d => timestamp d <> timestamp c) series ->
  is_ascending (insert_by_timestamp c series) = true.
Proof.
  induction series as [|x series IH]; intros Hasc Hfresh; [reflexivity |].
  cbn [insert_by_timestamp].
  apply Forall_cons in Hfresh as [Hx Hfresh].
  destruct (timestamp c <? timestamp x) eqn:Hcx.
  - cbn [is_ascending]. rewrite Hcx. exact Hasc.
  - apply Z.ltb_ge in Hcx.
    apply ascending_cons in Hasc as [Hrest Hall].
    apply ascending_cons_intro; [exact (IH Hrest Hfresh) |].
    rewrite Forall_forall in *. intros d Hd.
    apply elem_of_insert_by_timestamp in Hd as [-> | Hd].
    + tlia.
    + exact (Hall d Hd).
Qed.

Lemma group_rows_grouped done todo groups :
  NoDup (map (fun c => (pair_id c, timestamp c)) (done ++ todo)) ->
  grouped done groups ->
  grouped (done ++ todo) (group_rows groups todo).
Proof.
  revert done groups.
  induction todo as [|c todo IH]; intros done groups Hnodup Hinv.
  - rewrite app_nil_r. exact Hinv.
  - cbn [group_rows foldl].
    replace (done ++ c :: todo) with ((done ++ [c]) ++ todo) in *
      by (rewrite <- app_assoc; reflexivity).
    apply IH; [exact Hnodup |].
    intros p series Hlookup.
    destruct (decide (pair_id c = p)) as [<- | Hne].
    + rewrite lookup_insert_eq in Hlookup. injection Hlookup as <-.
      assert (Hold : is_ascending (default [] (groups !! pair_id c)) = true /\
                     forall d, d ∈ default [] (groups !! pair_id c) ->
                               d ∈ done /\ pair_id d = pair_id c).
      { destruct (groups !! pair_id c) as [old|] eqn:Hold; cbn [default].
        - exact (Hinv _ _ Hold).
        - split; [reflexivity |]. intros d Hd. inversion Hd. }
      destruct Hold as [Hasc Hrows]. split.
      * apply insert_by_timestamp_ascending; [exact Hasc |].
        rewrite Forall_forall. intros d Hd Hsame.
        destruct (Hrows d Hd) as [Hdone Hpair].
        rewrite map_app in Hnodup. apply NoDup_app in Hnodup as [Hleft _].
        rewrite map_app in Hleft. apply NoDup_app in Hleft as (_ & Hdisjoint & _).
        apply (Hdisjoint (pair_id c, timestamp c)).
        -- rewrite <- Hpair, <- Hsame.
           apply (list_elem_of_fmap_2 (fun c => (pair_id c, timestamp c))).
           exact Hdone.
        -- left.
      * intros d Hd. apply elem_of_insert_by_timestamp in Hd as [-> | Hd].
        -- split; [| reflexivity]. apply elem_of_app. right. left.
        -- destruct (Hrows d Hd) as [Hdone Hpair].
           split; [apply elem_of_app; left; exact Hdone | exact Hpair].
    + rewrite lookup_insert_ne in Hlookup by exact Hne.
      destruct (Hinv _ _ Hlookup) as [Hasc Hrows].
      split; [exact Hasc |]. intros d Hd.
      destruct (Hrows d Hd) as [Hdone Hpair].
      split; [apply elem_of_app; left; exact Hdone | exact Hpair].
Qed.

(** The constructor establishes the invariant of section 3: built from a
    table in which no pair has two rows at one timestamp, every series of
    the universe is ascending, and holds rows of its pair only. *)
Lemma init_series_ascending (df : list Candle) (pair_id_ : Z) series :
  NoDup (map (fun c => (pair_id c, timestamp c)) df) ->
  get_candles_by_pair (__init__ df) pair_id_ = Ok series ->
  is_ascending series = true /\
  forall c, c ∈ series -> c ∈ df /\ pair_id c = pair_id_.
Proof.
  intros Hnodup Hget. unfold get_candles_by_pair in Hget.
  destruct (pairs (__init__ df) !! pair_id_) as [s|] eqn:Hlookup;
    [| discriminate].
  injection Hget as <-.
  apply (group_rows_grouped [] df ∅ Hnodup); [| exact Hlookup].
  intros p s' Hempty. rewrite lookup_empty in Hempty. discriminate.
Qed.

(** C2. For a pair whose series is ascending, the lookup returns
    [(price, distance)] exactly when [price] is the close of the candle
    with the greatest timestamp not exceeding [when], [distance] is
    [when] less that timestamp, and [distance <= tolerance]; it raises
    [CandleSampleUnavailable] exactly when no candle is at or before
    [when] or the nearest such candle is further than [tolerance]; and it
    raises nothing else. *)
Theorem get_price_with_tolerance_spec (self : GroupedCandleUniverse)
    (pair_id : Z) series when (tolerance : Timedelta) :
  get_candles_by_pair self pair_id = Ok series ->
  is_ascending series = true ->
  (forall price distance,
     get_price_with_tolerance self pair_id when tolerance = Ok (price, distance)
     <-> exists c, nearest_before when series c /\
                   price = close c /\
                   distance = when - timestamp c /\
                   distance <= tolerance) /\
  (get_price_with_tolerance self pair_id when tolerance
     = Raise (CandleSampleUnavailable pair_id when tolerance)
   <-> (forall d, d ∈ series -> when < timestamp d) \/
       (exists c, nearest_before when series c /\
                  tolerance < when - timestamp c)) /\
  (forall e,
     get_price_with_tolerance self pair_id when tolerance = Raise e ->
     e = CandleSampleUnavailable pair_id when tolerance).
Proof.
  intros Hseries Hasc. unfold get_price_with_tolerance.
  rewrite Hseries. cbn [mbind result_bind].
  destruct (rightmost_not_after when series) as [c|] eqn:Hfound.
  - pose proof (rightmost_some when series c Hasc Hfound) as Hnearest.
    assert (Hsame : forall c', nearest_before when series c' -> c' = c).
    { intros c' Hc'. apply (rightmost_some_intro _ _ _ Hasc) in Hc'.
      rewrite Hfound in Hc'. injection Hc' as <-. reflexivity. }
    destruct (tolerance <? when - timestamp c) eqn:Hfar.
    + apply Z.ltb_lt in Hfar. split; [| split].
      * intros price distance. split; [discriminate |].
        intros (c' & Hc' & _ & -> & Hnear).
        rewrite (Hsame c' Hc') in Hnear. tlia.
      * split; [| reflexivity].
        intros _. right. exists c. split; [exact Hnearest | exact Hfar].
      * intros e He. injection He as <-. reflexivity.
    + apply Z.ltb_ge in Hfar. split; [| split].
      * intros price distance. split.
        -- intros Hok. injection Hok as <- <-. exists c.
           split; [exact Hnearest |]. split; [reflexivity |].
           split; [reflexivity | exact Hfar].
        -- intros (c' & Hc' & -> & -> & _).
           rewrite (Hsame c' Hc'). reflexivity.
      * split; [discriminate |].
        intros [Hnone | (c' & Hc' & Hfar')].
        -- destruct Hnearest as (Hin & Hle & _).
           specialize (Hnone c Hin). tlia.
        -- rewrite (Hsame c' Hc') in Hfar'. tlia.
      * discriminate.
  - pose proof (rightmost_none when series Hasc Hfound) as Hnone.
    split; [| split].
    + intros price distance. split; [discriminate |].
      intros (c & (Hin & Hle & _) & _). specialize (Hnone c Hin). tlia.
    + split; [| reflexivity]. intros _. left. exact Hnone.
    + intros e He. injection He as <-. reflexivity.
Qed.

(** C6. A lookup that succeeds within one tolerance succeeds within any
    greater one, with the same price and distance. *)
Theorem get_price_with_tolerance_monotone (self : GroupedCandleUniverse)
    (pair_id : Z) when (t1 t2 : Timedelta) (found : float * Timedelta) :
  t1 <= t2 ->
  get_price_with_tolerance self pair_id when t1 = Ok found ->
  get_price_with_tolerance self pair_id when t2 = Ok found.
Proof.
  intros Hle. unfold get_price_with_tolerance.
  destruct (get_candles_by_pair self pair_id) as [series|e];
    cbn [mbind result_bind]; [| discriminate].
  destruct (rightmost_not_after when series) as [c|]; [| discriminate].
  destruct (t1 <? when - timestamp c) eqn:H1; [discriminate |].
  apply Z.ltb_ge in H1.
  assert ((t2 <? when - timestamp c) = false) as -> by (apply Z.ltb_ge; tlia).
  intros Hok. exact Hok.
Qed.

(** Membership in what [get_single_pair_data] returns, by the rows read. *)
Lemma get_single_pair_data_member (self : GroupedCandleUniverse)
    (T : Timestamp) c :
  (c ∈ get_single_pair_data self T false <-> c ∈ rows self /\ timestamp c < T) /\
  (c ∈ get_single_pair_data self T true
   <-> c ∈ get_single_pair_data self T false \/
       (c ∈ rows self /\ timestamp c = T)) /\
  (forall allow_current,
     c ∈ get_single_pair_data self T allow_current -> ~ T < timestamp c).
Proof.
  assert (Hmem : forall allow_current,
            c ∈ get_single_pair_data self T allow_current <->
            c ∈ rows self /\
            (if allow_current then timestamp c <= T else timestamp c < T)).
  { intros allow_current. unfold get_single_pair_data.
    rewrite list_elem_of_In, List.filter_In, <- list_elem_of_In.
    destruct allow_current; rewrite ?Z.leb_le, ?Z.ltb_lt; reflexivity. }
  split; [apply (Hmem false) |]. split.
  - rewrite (Hmem true), (Hmem false). split.
    + intros [Hin Hle].
      destruct (Z.eq_dec (timestamp c) T) as [Heq | Hne].
      * right. split; assumption.
      * left. split; [exact Hin | tlia].
    + intros [[Hin Hlt] | [Hin Heq]]; (split; [exact Hin | tlia]).
  - intros allow_current Hin. apply Hmem in Hin as [_ Hle].
    destruct allow_current; tlia.
Qed.

(** For a universe of one pair, the rows read are that pair's series. *)
Lemma rows_single_pair (pair_id : Z) series :
  rows {| pairs := {[ pair_id := series ]} |} = series.
Proof.
  unfold rows. cbn [pairs]. rewrite map_to_list_singleton.
  cbn. apply app_nil_r.
Qed.

(** A universe of one pair holds the series of that pair and nothing else. *)
Lemma single_pair_universe (self : GroupedCandleUniverse) (pair_id : Z) series :
  get_pair_count self = 1%nat ->
  get_candles_by_pair self pair_id = Ok series ->
  self = {| pairs := {[ pair_id := series ]} |}.
Proof.
  destruct self as [groups]. unfold get_pair_count, get_candles_by_pair.
  cbn [pairs]. intros Hsize Hget.
  destruct (groups !! pair_id) as [s|] eqn:Hlookup; [| discriminate].
  injection Hget as ->. f_equal.
  rewrite <- (insert_delete_id groups pair_id series Hlookup) in Hsize |- *.
  rewrite map_size_insert_None in Hsize by apply lookup_delete_eq.
  assert (Hrest : delete pair_id groups = ∅).
  { apply map_size_empty_iff. lia. }
  rewrite Hrest. apply insert_empty.
Qed.

(** In a series sorted by timestamp, the rows at or before an instant
    come first, and among them the rows strictly before it. *)
Lemma sorted_series_split series (T : Timestamp) :
  pandas.is_monotonic_increasing (map timestamp series) = true ->
  series = List.filter (fun c => timestamp c <=? T) series
           ++ List.filter (fun c => T <? timestamp c) series.
Proof.
  induction series as [|x series IH]; intros Hinc; [reflexivity |].
  change (map timestamp (x :: series)) with (timestamp x :: map timestamp series)
    in Hinc.
  apply increasing_cons in Hinc as [Hrest Hall].
  rewrite List.Forall_map in Hall. cbn [List.filter].
  destruct (timestamp x <=? T) eqn:Hx.
  - apply Z.leb_le in Hx.
    assert ((T <? timestamp x) = false) as -> by (apply Z.ltb_ge; tlia).
    cbn [app]. f_equal. exact (IH Hrest).
  - apply Z.leb_gt in Hx.
    assert ((T <? timestamp x) = true) as -> by (apply Z.ltb_lt; tlia).
    rewrite filter_none, filter_all; [reflexivity | |].
    + eapply Forall_impl; [exact Hall |].
      cbn. intros d Hd. apply Z.ltb_lt. tlia.
    + eapply Forall_impl; [exact Hall |].
      cbn. intros d Hd. apply Z.leb_gt. tlia.
Qed.

Lemma sorted_series_current series (T : Timestamp) :
  pandas.is_monotonic_increasing (map timestamp series) = true ->
  List.filter (fun c => timestamp c <=? T) series
    = List.filter (fun c => timestamp c <? T) series
      ++ List.filter (fun c => timestamp c =? T) series.
Proof.
  induction series as [|x series IH]; intros Hinc; [reflexivity |].
  change (map timestamp (x :: series)) with (timestamp x :: map timestamp series)
    in Hinc.
  apply increasing_cons in Hinc as [Hrest Hall].
  rewrite List.Forall_map in Hall. cbn [List.filter].
  destruct (Z.lt_trichotomy (timestamp x) T) as [Hlt | [Heq | Hgt]].
  - assert ((timestamp x <=? T) = true) as -> by (apply Z.leb_le; tlia).
    assert ((timestamp x <? T) = true) as -> by (apply Z.ltb_lt; tlia).
    assert ((timestamp x =? T) = false) as -> by (apply Z.eqb_neq; tlia).
    cbn [app]. f_equal. exact (IH Hrest).
  - assert ((timestamp x <=? T) = true) as -> by (apply Z.leb_le; tlia).
    assert ((timestamp x <? T) = false) as -> by (apply Z.ltb_ge; tlia).
    assert ((timestamp x =? T) = true) as -> by (apply Z.eqb_eq; tlia).
    rewrite (IH Hrest).
    rewrite (filter_none (fun c => timestamp c <? T) series); [reflexivity |].
    eapply Forall_impl; [exact Hall |].
    cbn. intros d Hd. apply Z.ltb_ge. tlia.
  - assert ((timestamp x <=? T) = false) as -> by (apply Z.leb_gt; tlia).
    assert ((timestamp x <? T) = false) as -> by (apply Z.ltb_ge; tlia).
    assert ((timestamp x =? T) = false) as -> by (apply Z.eqb_neq; tlia).
    exact (IH Hrest).
Qed.

Lemma Forall_filter_holds {A} (p : A -> bool) (l : list A) :
  Forall (fun x => p x = true) (List.filter p l).
Proof.
  rewrite Forall_forall. intros x Hx.
  apply list_elem_of_In, List.filter_In in Hx as [_ Hp]. exact Hp.
Qed.

(** C3. For a universe of one pair, with [series] the stored series of
    that pair: without [allow_current] the call returns the rows of
    [series] with a timestamp strictly before the instant, and with it
    those at or before the instant, each row as often and in the order as
    [series] has it; no row after the instant is returned in either
    mode; and when [series] is sorted by timestamp, it is the rows
    returned without [allow_current], then the rows at the instant, which
    [allow_current] adds, then the rows after the instant, which are
    never returned. *)
Theorem get_single_pair_data_no_bias (self : GroupedCandleUniverse)
    (pair_id : Z) series (T : Timestamp) :
  get_pair_count self = 1%nat ->
  get_candles_by_pair self pair_id = Ok series ->
  get_single_pair_data self T false
    = List.filter (fun c => timestamp c <? T) series /\
  get_single_pair_data self T true
    = List.filter (fun c => timestamp c <=? T) series /\
  (forall c, c ∈ get_single_pair_data self T false
             <-> c ∈ series /\ timestamp c < T) /\
  (forall c, c ∈ get_single_pair_data self T true
             <-> c ∈ get_single_pair_data self T false \/
                 (c ∈ series /\ timestamp c = T)) /\
  (forall allow_current c,
     c ∈ get_single_pair_data self T allow_current ->
     c ∈ series /\ ~ T < timestamp c) /\
  (pandas.is_monotonic_increasing (map timestamp series) = true ->
   exists current later,
     get_single_pair_data self T true
       = get_single_pair_data self T false ++ current /\
     series = get_single_pair_data self T true ++ later /\
     Forall (fun c => timestamp c < T) (get_single_pair_data self T false) /\
     Forall (fun c => timestamp c = T) current /\
     Forall (fun c => T < timestamp c) later).
Proof.
  intros Hone Hseries.
  rewrite (single_pair_universe self pair_id series Hone Hseries).
  set (u := {| pairs := {[ pair_id := series ]} |}).
  assert (Hrows : rows u = series) by apply rows_single_pair.
  assert (Hfalse : get_single_pair_data u T false
                   = List.filter (fun c => timestamp c <? T) series)
    by (unfold get_single_pair_data; rewrite Hrows; reflexivity).
  assert (Htrue : get_single_pair_data u T true
                  = List.filter (fun c => timestamp c <=? T) series)
    by (unfold get_single_pair_data; rewrite Hrows; reflexivity).
  split; [exact Hfalse |]. split; [exact Htrue |].
  split; [| split; [| split]].
  - intros c. rewrite <- Hrows.
    apply (get_single_pair_data_member u T c).
  - intros c. rewrite <- Hrows.
    apply (get_single_pair_data_member u T c).
  - intros allow_current c Hin. split.
    + rewrite <- Hrows. unfold get_single_pair_data in Hin.
      apply list_elem_of_In, List.filter_In in Hin as [Hin _].
      apply list_elem_of_In, Hin.
    + apply (get_single_pair_data_member u T c) in Hin. exact Hin.
  - intros Hsorted. rewrite Hfalse, Htrue.
    exists (List.filter (fun c => timestamp c =? T) series),
           (List.filter (fun c => T <? timestamp c) series).
    split; [apply sorted_series_current, Hsorted |].
    split; [apply sorted_series_split, Hsorted |].
    split; [| split].
    + eapply Forall_impl; [apply Forall_filter_holds |].
      cbn. intros c Hc. apply Z.ltb_lt, Hc.
    + eapply Forall_impl; [apply Forall_filter_holds |].
      cbn. intros c Hc. apply Z.eqb_eq, Hc.
    + eapply Forall_impl; [apply Forall_filter_holds |].
      cbn. intros c Hc. apply Z.ltb_lt, Hc.
Qed.

(** *** The scenarios of test_candle_data.py *)

Example test_generate_candle_data :
  get_pair_count synthetic_universe = 1%nat /\
  get_candle_count synthetic_universe = 4%nat /\
  get_candles_by_pair synthetic_universe 1 = Ok synthetic_candles.
Proof. repeat split; vm_compute; reflexivity. Qed.

Example test_get_price_with_tolerance :
  get_price_with_tolerance synthetic_universe 1 date_2020_01_01 (days 1)
    = Ok (100.10%float, 0) /\
  get_price_with_tolerance synthetic_universe 1 (date_2020_01_01 + days 1) (days 1)
    = Ok (100.10%float, days 1) /\
  get_price_with_tolerance synthetic_universe 1 date_2020_02_01 (minutes 1)
    = Ok (100.50%float, 0) /\
  get_price_with_tolerance synthetic_universe 1 (date_2020_02_01 + minutes 5)
      (minutes 30)
    = Ok (100.50%float, minutes 5).
Proof. repeat split; vm_compute; reflexivity. Qed.

Example test_get_price_not_within_tolerance :
  is_ok (get_price_with_tolerance synthetic_universe 1
           (date_2020_01_01 + days 4) (days 1)) = false /\
  is_ok (get_price_with_tolerance synthetic_universe 1
           (date_2020_01_01 + minutes 5) (minutes 1)) = false.
Proof. split; vm_compute; reflexivity. Qed.

Example test_get_single_pair_data_allow_current :
  timestamp <$> last (get_single_pair_data synthetic_universe date_2020_09_01 false)
    = Some date_2020_03_01 /\
  timestamp <$> last (get_single_pair_data synthetic_universe date_2020_09_01 true)
    = Some date_2020_09_01.
Proof. split; vm_compute; reflexivity. Qed.

(** C2 at the second scenario: a day after the first candle, within a
    tolerance of one day, which the distance just meets. *)
Lemma get_price_with_tolerance_spec_witness :
  exists c,
    nearest_before (date_2020_01_01 + days 1) synthetic_candles c /\
    100.10%float = close c /\
    days 1 = date_2020_01_01 + days 1 - timestamp c /\
    days 1 <= days 1.
Proof.
  assert (Hseries : get_candles_by_pair synthetic_universe 1
                    = Ok synthetic_candles) by (vm_compute; reflexivity).
  assert (Hasc : is_ascending synthetic_candles = true) by reflexivity.
  destruct (get_price_with_tolerance_spec synthetic_universe 1
              synthetic_candles (date_2020_01_01 + days 1) (days 1)
              Hseries Hasc) as (Hreturns & _ & _).
  apply Hreturns. vm_compute. reflexivity.
Defined.

(** C3 at the scenario of the test: the instant of the last candle leaves
    the first three rows, and all four with [allow_current]. *)
Lemma get_single_pair_data_no_bias_witness :
  get_single_pair_data synthetic_universe date_2020_09_01 false
    = take 3 synthetic_candles /\
  get_single_pair_data synthetic_universe date_2020_09_01 true
    = synthetic_candles.
Proof.
  assert (Hone : get_pair_count synthetic_universe = 1%nat)
    by (vm_compute; reflexivity).
  assert (Hseries : get_candles_by_pair synthetic_universe 1
                    = Ok synthetic_candles) by (vm_compute; reflexivity).
  destruct (get_single_pair_data_no_bias synthetic_universe 1
              synthetic_candles date_2020_09_01 Hone Hseries)
    as (Hbefore & Hcurrent & _).
  split.
  - rewrite Hbefore. vm_compute. reflexivity.
  - rewrite Hcurrent. vm_compute. reflexivity.
Defined.

(** C6 at the same instant, for tolerances of one and of two days. *)
Lemma get_price_with_tolerance_monotone_witness :
  get_price_with_tolerance synthetic_universe 1 (date_2020_01_01 + days 1)
    (days 2) = Ok (100.10%float, days 1).
Proof.
  apply (get_price_with_tolerance_monotone synthetic_universe 1
           (date_2020_01_01 + days 1) (days 1) (days 2)).
  - vm_compute. discriminate.
  - vm_compute. reflexivity.
Defined.

End CandleFacts.

(** ** The chain registry: the first access and the methods of ChainId *)

Section ChainMethods.
Import chain.
Implicit Types (fs : FileSystem) (g : Globals) (c : ChainId).

Lemma bind_ok {A B} (m : M A) (k : A -> M B) g a g' :
  m g = (Ok a, g') -> bind m k g = k a g'.
Proof. unfold bind. intros ->. reflexivity. Qed.

Lemma bind_raise {A B} (m : M A) (k : A -> M B) g e g' :
  m g = (Raise e, g') -> bind m k g = (Raise e, g').
Proof. unfold bind. intros ->. reflexivity. Qed.

(** The guard, for use below. *)
Lemma guard_returns fs g :
  _chain_data g <> ∅ -> _ensure_chain_data_lazy_init fs g = (Ok tt, g).
Proof.
  intros Hfilled. apply truthy_non_empty in Hfilled.
  unfold _ensure_chain_data_lazy_init, bind, read. rewrite Hfilled.
  reflexivity.
Qed.

Lemma guard_passes fs g :
  _chain_data g = ∅ ->
  _ensure_chain_data_lazy_init fs g =
    bind (for_each (map value ChainId_members) (load_chain fs))
         (fun _ => bind (read chain_data_items)
                        (fun items => for_each items index_slug)) g.
Proof.
  intros Hempty. unfold _ensure_chain_data_lazy_init at 1.
  unfold bind at 1, read at 1. rewrite Hempty. reflexivity.
Qed.

(** One round of the first loop on a file that holds an object. *)
Lemma load_chain_object fs chain_id d g :
  chains_folder_exists fs = true ->
  data_files fs !! chain_id = Some (Some (JObject d)) ->
  load_chain fs chain_id g =
    (Ok tt, {| _chain_data :=
                 <[chain_id := JObject (overrides chain_id ∪ d)]> (_chain_data g);
               _slug_map := _slug_map g |}).
Proof.
  intros Hfolder Hfile. unfold load_chain. rewrite Hfolder, Hfile.
  cbn [negb]. unfold bind, set_chain_data, write. cbn [_chain_data _slug_map].
  rewrite insert_insert_eq. reflexivity.
Qed.

(** One round of the first loop returns only on such a file. *)
Lemma load_chain_returns fs chain_id g g' :
  load_chain fs chain_id g = (Ok tt, g') ->
  chains_folder_exists fs = true /\
  exists d, data_files fs !! chain_id = Some (Some (JObject d)).
Proof.
  unfold load_chain.
  destruct (chains_folder_exists fs); cbn [negb]; [| discriminate].
  destruct (data_files fs !! chain_id) as [[loaded|]|]; try discriminate.
  destruct loaded; unfold bind, set_chain_data, write, raise;
    try discriminate.
  intros _. split; [reflexivity |]. eexists. reflexivity.
Qed.

Lemma override_slug_lookup c d :
  (overrides (value c) ∪ d) !! slug_key = Some (JString (override_slug c)).
Proof.
  apply lookup_union_Some_l. destruct c; vm_compute; reflexivity.
Qed.

Lemma first_loop fs g d1 d56 d137 :
  holds fs d1 d56 d137 ->
  for_each (map value ChainId_members) (load_chain fs) g =
    (Ok tt, {| _chain_data := _chain_data (filled g d1 d56 d137);
               _slug_map := _slug_map g |}).
Proof.
  intros (Hfolder & H1 & H56 & H137).
  cbn [map value ChainId_members for_each].
  rewrite (bind_ok _ _ _ _ _ (load_chain_object fs 1 d1 _ Hfolder H1)).
  rewrite (bind_ok _ _ _ _ _ (load_chain_object fs 56 d56 _ Hfolder H56)).
  rewrite (bind_ok _ _ _ _ _ (load_chain_object fs 137 d137 _ Hfolder H137)).
  reflexivity.
Qed.

Lemma filled_items g d1 d56 d137 :
  chain_data_items (filled g d1 d56 d137) =
    [(1, JObject (overrides 1 ∪ d1));
     (56, JObject (overrides 56 ∪ d56));
     (137, JObject (overrides 137 ∪ d137))].
Proof.
  unfold chain_data_items, filled.
  cbn [omap list_omap ChainId_members value _chain_data].
  rewrite lookup_insert_ne by discriminate.
  rewrite lookup_insert_ne by discriminate.
  rewrite lookup_insert_eq.
  rewrite lookup_insert_ne by discriminate.
  rewrite lookup_insert_eq.
  rewrite lookup_insert_eq.
  reflexivity.
Qed.

(** A first access on a folder whose three files hold JSON objects
    returns, and leaves the globals [filled]. *)
Lemma first_access_on_objects fs g d1 d56 d137 :
  _chain_data g = ∅ ->
  holds fs d1 d56 d137 ->
  _ensure_chain_data_lazy_init fs g = (Ok tt, filled g d1 d56 d137).
Proof.
  intros Hempty Hholds.
  rewrite (guard_passes fs g Hempty).
  rewrite (bind_ok _ _ _ _ _ (first_loop fs g d1 d56 d137 Hholds)).
  unfold bind at 1, read at 1.
  change (chain_data_items _) with (chain_data_items (filled g d1 d56 d137)).
  rewrite filled_items.
  cbn [for_each]. unfold index_slug.
  pose proof (override_slug_lookup ethereum d1) as E1.
  pose proof (override_slug_lookup bsc d56) as E56.
  pose proof (override_slug_lookup polygon d137) as E137.
  cbn [value override_slug] in E1, E56, E137.
  unfold bind. rewrite E1. cbn. rewrite E56. cbn. rewrite E137. reflexivity.
Qed.

(** A first access returns only on such files. *)
Lemma first_access_returns fs g g' :
  _chain_data g = ∅ ->
  _ensure_chain_data_lazy_init fs g = (Ok tt, g') ->
  exists d1 d56 d137, holds fs d1 d56 d137 /\ g' = filled g d1 d56 d137.
Proof.
  intros Hempty Hreturns.
  assert (Hholds : exists d1 d56 d137, holds fs d1 d56 d137).
  { rewrite (guard_passes fs g Hempty) in Hreturns.
    unfold bind at 1 in Hreturns.
    destruct (for_each (map value ChainId_members) (load_chain fs) g)
      as [[[]|e] g3] eqn:Hloop; [| discriminate].
    clear Hreturns. cbn [map value ChainId_members for_each] in Hloop.
    unfold bind in Hloop.
    destruct (load_chain fs 1 g) as [[[]|e1] g1] eqn:L1; [| discriminate].
    destruct (load_chain fs 56 g1) as [[[]|e2] g2] eqn:L56; [| discriminate].
    destruct (load_chain fs 137 g2) as [[[]|e3] g3'] eqn:L137; [| discriminate].
    apply load_chain_returns in L1 as [Hfolder [d1 H1]].
    apply load_chain_returns in L56 as [_ [d56 H56]].
    apply load_chain_returns in L137 as [_ [d137 H137]].
    exists d1, d56, d137. repeat split; assumption. }
  destruct Hholds as (d1 & d56 & d137 & Hholds).
  exists d1, d56, d137. split; [exact Hholds |].
  rewrite (first_access_on_objects fs g d1 d56 d137 Hempty Hholds) in Hreturns.
  injection Hreturns as <-. reflexivity.
Qed.

(** X1. A first access returns exactly when the folder exists and the
    three files hold JSON objects; it then stores each file's object
    updated with the overrides and indexes the three slugs of the
    overrides, whatever slugs the files give. *)
Theorem first_access_fills fs g g' :
  _chain_data g = ∅ ->
  _ensure_chain_data_lazy_init fs g = (Ok tt, g') <->
  exists d1 d56 d137, holds fs d1 d56 d137 /\ g' = filled g d1 d56 d137.
Proof.
  intros Hempty. split.
  - apply first_access_returns, Hempty.
  - intros (d1 & d56 & d137 & Hholds & ->).
    apply first_access_on_objects; assumption.
Qed.

Lemma first_access_fills_witness :
  _ensure_chain_data_lazy_init packaged at_import = (Ok tt, initialised).
Proof.
  apply (first_access_fills packaged at_import initialised eq_refl).
  eexists _, _, _. split.
  - repeat split; reflexivity.
  - vm_compute. reflexivity.
Defined.

Lemma filled_non_empty g d1 d56 d137 :
  _chain_data (filled g d1 d56 d137) <> ∅.
Proof. unfold filled. cbn [_chain_data]. apply insert_non_empty. Qed.

Lemma filled_lookup g d1 d56 d137 c :
  _chain_data (filled g d1 d56 d137) !! value c
    = Some (JObject (overrides (value c) ∪ file_of c d1 d56 d137)).
Proof.
  unfold filled. cbn [_chain_data].
  destruct c; cbn [value file_of].
  - rewrite !lookup_insert_ne by discriminate. apply lookup_insert_eq.
  - rewrite lookup_insert_ne by discriminate. apply lookup_insert_eq.
  - apply lookup_insert_eq.
Qed.

(** Once filled, [ChainId.data] is the stored object of the chain. *)
Lemma filled_data fs g d1 d56 d137 c :
  data fs c (filled g d1 d56 d137)
    = (Ok (JObject (overrides (value c) ∪ file_of c d1 d56 d137)),
       filled g d1 d56 d137).
Proof.
  unfold data, _get_chain_data.
  rewrite (bind_ok _ _ _ _ _ (guard_returns fs _ (filled_non_empty g d1 d56 d137))).
  unfold bind, read. rewrite filled_lookup. reflexivity.
Qed.

(** A field that the overrides give is read from the overrides. *)
Lemma filled_override_field fs g d1 d56 d137 c key v :
  overrides (value c) !! key = Some v ->
  bind (data fs c) (fun d => getitem d key) (filled g d1 d56 d137)
    = (Ok v, filled g d1 d56 d137).
Proof.
  intros Hkey. rewrite (bind_ok _ _ _ _ _ (filled_data fs g d1 d56 d137 c)).
  unfold getitem. rewrite (lookup_union_Some_l _ _ _ _ Hkey). reflexivity.
Qed.

(** A field that the overrides do not give is read from the file. *)
Lemma filled_file_field fs g d1 d56 d137 c key :
  overrides (value c) !! key = None ->
  bind (data fs c) (fun d => getitem d key) (filled g d1 d56 d137)
    = (match file_of c d1 d56 d137 !! key with
       | Some v => Ok v
       | None => Raise (KeyError (StrKey key))
       end, filled g d1 d56 d137).
Proof.
  intros Hkey. rewrite (bind_ok _ _ _ _ _ (filled_data fs g d1 d56 d137 c)).
  unfold getitem. rewrite (lookup_union_r _ _ _ Hkey).
  destruct (file_of c d1 d56 d137 !! key); reflexivity.
Qed.

Lemma filled_slug_lookup g d1 d56 d137 c :
  _slug_map (filled g d1 d56 d137) !! override_slug c = Some (value c).
Proof.
  unfold filled. cbn [_slug_map].
  destruct c; cbn [value override_slug].
  - rewrite !lookup_insert_ne by discriminate. apply lookup_insert_eq.
  - rewrite lookup_insert_ne by discriminate. apply lookup_insert_eq.
  - apply lookup_insert_eq.
Qed.

Lemma filled_get_slug_map fs g d1 d56 d137 :
  _get_slug_map fs (filled g d1 d56 d137)
    = (Ok (_slug_map (filled g d1 d56 d137)), filled g d1 d56 d137).
Proof.
  unfold _get_slug_map.
  rewrite (bind_ok _ _ _ _ _ (guard_returns fs _ (filled_non_empty g d1 d56 d137))).
  reflexivity.
Qed.

Lemma ChainId_of_value_value c g : ChainId_of_value (value c) g = (Ok c, g).
Proof. destruct c; reflexivity. Qed.

(** X2. After a first access that returned, every chain's [get_slug()]
    is the slug of the overrides, and [get_by_slug] of that slug is the
    chain again; neither call changes the registry or reads the files. *)
Theorem slug_round_trip fs fs' g g' c :
  _chain_data g = ∅ ->
  _ensure_chain_data_lazy_init fs g = (Ok tt, g') ->
  get_slug fs' c g' = (Ok (JString (override_slug c)), g') /\
  get_by_slug fs' (override_slug c) g' = (Ok (Some c), g').
Proof.
  intros Hempty Hreturns.
  apply (first_access_returns fs g g' Hempty) in Hreturns
    as (d1 & d56 & d137 & _ & ->).
  split.
  - unfold get_slug. apply filled_override_field.
    destruct c; vm_compute; reflexivity.
  - unfold get_by_slug.
    rewrite (bind_ok _ _ _ _ _ (filled_get_slug_map fs' g d1 d56 d137)).
    rewrite filled_slug_lookup.
    rewrite (bind_ok _ _ _ _ _ (ChainId_of_value_value c _)). reflexivity.
Qed.

Lemma slug_round_trip_witness :
  get_slug incomplete bsc initialised = (Ok (JString "binance"), initialised) /\
  get_by_slug incomplete "binance" initialised = (Ok (Some bsc), initialised).
Proof.
  apply (slug_round_trip packaged incomplete at_import initialised bsc).
  - reflexivity.
  - vm_compute. reflexivity.
Defined.

(** X3. After a first access from empty dictionaries, a slug that is not
    one of the three override slugs resolves to [None]: [get_by_slug]
    returns without raising, and the slugs of the files are not known. *)
Theorem get_by_slug_unknown fs fs' g g' (slug : string) :
  _chain_data g = ∅ ->
  _slug_map g = ∅ ->
  _ensure_chain_data_lazy_init fs g = (Ok tt, g') ->
  (forall c, slug <> override_slug c) ->
  get_by_slug fs' slug g' = (Ok None, g').
Proof.
  intros Hempty Hslugs Hreturns Hunknown.
  apply (first_access_returns fs g g' Hempty) in Hreturns
    as (d1 & d56 & d137 & _ & ->).
  unfold get_by_slug.
  rewrite (bind_ok _ _ _ _ _ (filled_get_slug_map fs' g d1 d56 d137)).
  unfold filled. cbn [_slug_map].
  pose proof (Hunknown ethereum) as He.
  pose proof (Hunknown bsc) as Hb.
  pose proof (Hunknown polygon) as Hp.
  cbn [override_slug] in He, Hb, Hp.
  rewrite !lookup_insert_ne by congruence.
  rewrite Hslugs, lookup_empty. reflexivity.
Qed.

Lemma get_by_slug_unknown_witness :
  get_by_slug incomplete "eth" initialised = (Ok None, initialised).
Proof.
  apply (get_by_slug_unknown packaged incomplete at_import initialised "eth").
  - reflexivity.
  - reflexivity.
  - vm_compute. reflexivity.
  - intros c. destruct c; discriminate.
Defined.

(** X4. After a first access that returned, [get_name()] and
    [get_svg_icon_link()] of every chain return the values of the
    overrides, whatever the files hold, and never raise. *)
Theorem override_fields fs fs' g g' c :
  _chain_data g = ∅ ->
  _ensure_chain_data_lazy_init fs g = (Ok tt, g') ->
  exists name icon,
    _CHAIN_DATA_OVERRIDES !! value c
      = Some {[ "name" := name; "slug" := JString (override_slug c);
                "svg_icon" := icon ]} /\
    get_name fs' c g' = (Ok name, g') /\
    get_svg_icon_link fs' c g' = (Ok icon, g').
Proof.
  intros Hempty Hreturns.
  apply (first_access_returns fs g g' Hempty) in Hreturns
    as (d1 & d56 & d137 & _ & ->).
  unfold get_name, get_svg_icon_link.
  destruct c; eexists _, _;
    (split; [vm_compute; reflexivity |]);
    (split; apply filled_override_field; vm_compute; reflexivity).
Qed.

Lemma override_fields_witness :
  exists name icon,
    _CHAIN_DATA_OVERRIDES !! value polygon
      = Some {[ "name" := name; "slug" := JString (override_slug polygon);
                "svg_icon" := icon ]} /\
    get_name incomplete polygon initialised = (Ok name, initialised) /\
    get_svg_icon_link incomplete polygon initialised = (Ok icon, initialised).
Proof.
  apply (override_fields packaged incomplete at_import initialised polygon).
  - reflexivity.
  - vm_compute. reflexivity.
Defined.

Lemma holds_file_of fs d1 d56 d137 c d :
  holds fs d1 d56 d137 ->
  data_files fs !! value c = Some (Some (JObject d)) ->
  file_of c d1 d56 d137 = d.
Proof.
  intros (_ & H1 & H56 & H137) Hfile.
  destruct c; cbn [value file_of] in *; congruence.
Qed.

(** X5. The overrides give no home page: after a first access that
    returned, [get_homepage()] returns the [infoURL] member of the
    chain's file, and raises [KeyError] when the file has none. *)
Theorem get_homepage_from_file fs fs' g g' c d :
  _chain_data g = ∅ ->
  _ensure_chain_data_lazy_init fs g = (Ok tt, g') ->
  data_files fs !! value c = Some (Some (JObject d)) ->
  get_homepage fs' c g'
    = (match d !! "infoURL" with
       | Some url => Ok url
       | None => Raise (KeyError (StrKey "infoURL"))
       end, g').
Proof.
  intros Hempty Hreturns Hfile.
  apply (first_access_returns fs g g' Hempty) in Hreturns
    as (d1 & d56 & d137 & Hholds & ->).
  rewrite <- (holds_file_of fs d1 d56 d137 c d Hholds Hfile).
  unfold get_homepage. apply filled_file_field.
  destruct c; vm_compute; reflexivity.
Qed.

Lemma get_homepage_from_file_witness :
  get_homepage incomplete ethereum initialised
    = (Raise (KeyError (StrKey "infoURL")), initialised).
Proof.
  rewrite (get_homepage_from_file packaged incomplete at_import initialised
             ethereum {[ "chainId" := JNumber 1; "slug" := JString "eth";
                         "shortName" := JString "eth" ]}).
  - vm_compute. reflexivity.
  - reflexivity.
  - vm_compute. reflexivity.
  - vm_compute. reflexivity.
Defined.

(** X6. After a first access from an empty registry, [_get_chain_data]
    of an id that is the value of no member raises [KeyError] with that
    id, and leaves the registry as it is. *)
Theorem get_chain_data_unknown fs fs' g g' (chain_id : Z) :
  _chain_data g = ∅ ->
  _ensure_chain_data_lazy_init fs g = (Ok tt, g') ->
  (forall c, chain_id <> value c) ->
  _get_chain_data fs' chain_id g' = (Raise (KeyError (IntKey chain_id)), g').
Proof.
  intros Hempty Hreturns Hunknown.
  apply (first_access_returns fs g g' Hempty) in Hreturns
    as (d1 & d56 & d137 & _ & ->).
  unfold _get_chain_data.
  rewrite (bind_ok _ _ _ _ _ (guard_returns fs' _ (filled_non_empty g d1 d56 d137))).
  unfold bind, read, filled. cbn [_chain_data].
  pose proof (Hunknown ethereum) as He.
  pose proof (Hunknown bsc) as Hb.
  pose proof (Hunknown polygon) as Hp.
  cbn [value] in He, Hb, Hp.
  rewrite !lookup_insert_ne by congruence.
  rewrite Hempty, lookup_empty. reflexivity.
Qed.

Lemma get_chain_data_unknown_witness :
  _get_chain_data incomplete 43114 initialised
    = (Raise (KeyError (IntKey 43114)), initialised).
Proof.
  apply (get_chain_data_unknown packaged incomplete at_import initialised 43114).
  - reflexivity.
  - vm_compute. reflexivity.
  - intros c. destruct c; discriminate.
Defined.

(** X7. A first access that fails at the first chain, because the folder
    is missing or the file of chain 1 is missing or is not JSON, raises
    and leaves both dictionaries as they were, so the guard lets the next
    access try again. *)
Theorem first_access_fails_clean fs g :
  _chain_data g = ∅ ->
  (chains_folder_exists fs = false ->
   _ensure_chain_data_lazy_init fs g
     = (Raise (RuntimeError "Chain data folder not found"), g)) /\
  (chains_folder_exists fs = true -> data_files fs !! 1 = None ->
   _ensure_chain_data_lazy_init fs g = (Raise (ChainDataDoesNotExist 1), g)) /\
  (chains_folder_exists fs = true -> data_files fs !! 1 = Some None ->
   _ensure_chain_data_lazy_init fs g = (Raise JSONDecodeError, g)).
Proof.
  intros Hempty. rewrite (guard_passes fs g Hempty).
  cbn [map value ChainId_members for_each]. unfold bind, load_chain, raise.
  repeat split.
  - intros ->. reflexivity.
  - intros -> ->. reflexivity.
  - intros -> ->. reflexivity.
Qed.

Lemma first_access_fails_clean_witness :
  _ensure_chain_data_lazy_init
    {| chains_folder_exists := false; data_files := ∅ |} at_import
    = (Raise (RuntimeError "Chain data folder not found"), at_import).
Proof.
  apply (first_access_fails_clean
           {| chains_folder_exists := false; data_files := ∅ |} at_import).
  - reflexivity.
  - reflexivity.
Defined.

(** Whatever one round of the first loop does, it leaves the slug map
    alone and does not empty the registry. *)
Lemma load_chain_keeps fs chain_id g :
  _slug_map (load_chain fs chain_id g).2 = _slug_map g /\
  (_chain_data g <> ∅ -> _chain_data (load_chain fs chain_id g).2 <> ∅).
Proof.
  unfold load_chain.
  destruct (chains_folder_exists fs); cbn [negb];
    [| split; [reflexivity | intros Hne; exact Hne]].
  destruct (data_files fs !! chain_id) as [[loaded|]|];
    try (split; [reflexivity | intros Hne; exact Hne]).
  destruct loaded; unfold bind, set_chain_data, write, raise;
    cbn [snd _slug_map _chain_data];
    (split; [reflexivity | intros _; apply insert_non_empty]).
Qed.

(** X8. A first access that stores chain 1 and then raises leaves the
    registry non-empty with no slug indexed: from then on the guard
    returns at once, and [get_by_slug] answers [None] for every slug,
    whatever the files have become. *)
Theorem failed_access_poisons fs g d1 e g' :
  _chain_data g = ∅ ->
  _slug_map g = ∅ ->
  chains_folder_exists fs = true ->
  data_files fs !! 1 = Some (Some (JObject d1)) ->
  _ensure_chain_data_lazy_init fs g = (Raise e, g') ->
  forall fs' (slug : string), get_by_slug fs' slug g' = (Ok None, g').
Proof.
  intros Hempty Hslugs Hfolder H1 Hraises.
  assert (Hstate : _chain_data g' <> ∅ /\ _slug_map g' = ∅).
  { pose proof Hraises as Hloop.
    rewrite (guard_passes fs g Hempty) in Hloop. unfold bind at 1 in Hloop.
    cbn [map value ChainId_members for_each] in Hloop.
    rewrite (bind_ok _ _ _ _ _ (load_chain_object fs 1 d1 g Hfolder H1))
      in Hloop.
    set (g1 := {| _chain_data := <[1 := JObject (overrides 1 ∪ d1)]> (_chain_data g);
                  _slug_map := _slug_map g |}) in *.
    assert (Hg1 : _chain_data g1 <> ∅) by apply insert_non_empty.
    pose proof (load_chain_keeps fs 56 g1) as [Hs2 Hn2].
    unfold bind at 1 in Hloop.
    destruct (load_chain fs 56 g1) as [[[]|e2] g2] eqn:L56; cbn [snd] in *.
    - pose proof (load_chain_keeps fs 137 g2) as [Hs3 Hn3].
      unfold bind at 1 in Hloop.
      destruct (load_chain fs 137 g2) as [[[]|e3] g3] eqn:L137; cbn [snd] in *.
      + exfalso.
        apply load_chain_returns in L56 as [_ [d56 H56]].
        apply load_chain_returns in L137 as [_ [d137 H137]].
        assert (Hholds : holds fs d1 d56 d137) by (repeat split; assumption).
        rewrite (first_access_on_objects fs g d1 d56 d137 Hempty Hholds)
          in Hraises.
        discriminate Hraises.
      + injection Hloop as _ <-.
        split; [apply Hn3, Hn2, Hg1 |].
        rewrite Hs3, Hs2. exact Hslugs.
    - injection Hloop as _ <-.
      split; [apply Hn2, Hg1 |]. rewrite Hs2. exact Hslugs. }
  destruct Hstate as [Hne Hnone]. intros fs' slug.
  unfold get_by_slug, _get_slug_map.
  rewrite (bind_ok _ _ _ _ _ (bind_ok _ _ _ _ _ (guard_returns fs' g' Hne))).
  unfold read. rewrite Hnone, lookup_empty. reflexivity.
Qed.

Lemma failed_access_poisons_witness :
  get_by_slug packaged "ethereum"
    (_ensure_chain_data_lazy_init incomplete at_import).2
  = (Ok None, (_ensure_chain_data_lazy_init incomplete at_import).2).
Proof.
  apply (failed_access_poisons incomplete at_import
           {[ "chainId" := JNumber 1; "slug" := JString "eth";
              "shortName" := JString "eth" ]}
           (ChainDataDoesNotExist 56)).
  - reflexivity.
  - reflexivity.
  - reflexivity.
  - vm_compute. reflexivity.
  - vm_compute. reflexivity.
Defined.

(** With the registry non-empty, [ChainId.data] is what is stored. *)
Lemma data_stored fs g c (v : json) :
  _chain_data g <> ∅ ->
  _chain_data g !! value c = Some v ->
  data fs c g = (Ok v, g).
Proof.
  intros Hne Hstored. unfold data, _get_chain_data.
  rewrite (bind_ok _ _ _ _ _ (guard_returns fs g Hne)).
  unfold bind, read. rewrite Hstored. reflexivity.
Qed.

(** X14. A file of chain 1 that parses to JSON other than an object makes
    the first access raise [AttributeError] after the value was stored:
    the registry is no longer empty, the guard returns from then on, and
    [ChainId.ethereum.get_name()] raises [TypeError] at every call. *)
Theorem non_object_file_poisons fs g (v : json) :
  _chain_data g = ∅ ->
  chains_folder_exists fs = true ->
  data_files fs !! 1 = Some (Some v) ->
  (forall d, v <> JObject d) ->
  exists g',
    _ensure_chain_data_lazy_init fs g
      = (Raise (AttributeError "object has no attribute update"), g') /\
    _chain_data g' = {[ 1 := v ]} /\
    forall fs', exists msg,
      get_name fs' ethereum g' = (Raise (TypeError msg), g').
Proof.
  intros Hempty Hfolder Hfile Hnot.
  exists {| _chain_data := <[1 := v]> (_chain_data g); _slug_map := _slug_map g |}.
  split; [| split].
  - rewrite (guard_passes fs g Hempty).
    cbn [map value ChainId_members for_each].
    unfold bind, load_chain. rewrite Hfolder, Hfile. cbn [negb].
    unfold bind, set_chain_data, write, raise.
    destruct v; try reflexivity. exfalso. exact (Hnot _ eq_refl).
  - cbn [_chain_data]. rewrite Hempty. reflexivity.
  - intros fs'. unfold get_name.
    set (g' := {| _chain_data := <[1 := v]> (_chain_data g);
                  _slug_map := _slug_map g |}).
    assert (Hdata : data fs' ethereum g' = (Ok v, g')).
    { apply data_stored; [apply insert_non_empty | apply lookup_insert_eq]. }
    rewrite (bind_ok _ _ _ _ _ Hdata). unfold getitem, raise.
    destruct v; try (eexists; reflexivity).
    exfalso. exact (Hnot _ eq_refl).
Qed.

Lemma non_object_file_poisons_witness :
  exists g',
    _ensure_chain_data_lazy_init
      {| chains_folder_exists := true;
         data_files := {[ 1 := Some (JArray []) ]} |} at_import
      = (Raise (AttributeError "object has no attribute update"), g') /\
    _chain_data g' = {[ 1 := JArray [] ]} /\
    forall fs', exists msg,
      get_name fs' ethereum g' = (Raise (TypeError msg), g').
Proof.
  apply (non_object_file_poisons
           {| chains_folder_exists := true;
              data_files := {[ 1 := Some (JArray []) ]} |}
           at_import (JArray [])).
  - reflexivity.
  - reflexivity.
  - vm_compute. reflexivity.
  - intros d. discriminate.
Defined.

End ChainMethods.

(** ** CandleFeed: errors, history and corrections *)

Section CandleFeedMore.
Import pandas candle_feed.
Context `{Imports}.
Implicit Types (self : CandleFeed) (delta : TradeDelta).

Lemma apply_delta_unsorted self delta :
  is_sorted (index (candle_df self)) = false ->
  apply_delta self delta
    = Raise (ValueError "truncate requires a sorted index").
Proof.
  intros Hunsorted. unfold apply_delta.
  rewrite truncate_after_unsorted by exact Hunsorted. reflexivity.
Qed.

(** X9. A feed whose table is sorted neither way is stuck: every
    [apply_delta], whatever the delta, raises [ValueError] before the
    trades are looked at, and the feed stays as it is. *)
Theorem unsorted_feed_stuck self (deltas : list TradeDelta) :
  is_sorted (index (candle_df self)) = false ->
  run self (map ApplyDelta deltas)
    = (map (fun _ => Raised (ValueError "truncate requires a sorted index"))
           deltas, self).
Proof.
  intros Hunsorted. induction deltas as [|delta deltas IH]; [reflexivity |].
  cbn [map run step]. rewrite (apply_delta_unsorted self delta Hunsorted).
  rewrite IH. reflexivity.
Qed.

(** X10. What a returning [apply_delta] does to history: every row
    labelled strictly before [delta.start_ts] is still in the table, and
    every row of the new table labelled strictly after [delta.start_ts]
    is one of the resampled candles. *)
Theorem apply_delta_history self delta self' :
  apply_delta self delta = Ok self' ->
  (forall r, r ∈ candle_df self -> r.1 < start_ts delta ->
             r ∈ candle_df self') /\
  (forall r, r ∈ candle_df self' -> start_ts delta < r.1 ->
             exists candles,
               ohlcv_resample_trades (trades delta) (timeframe self)
                 = Ok candles /\ r ∈ candles).
Proof.
  intros Happly.
  apply apply_delta_inv in Happly as (candles & _ & Hresample & ->).
  cbn [candle_df]. unfold kept_rows. split.
  - intros r Hin Hbefore. apply elem_of_app. left.
    apply list_elem_of_In, List.filter_In. split.
    + apply list_elem_of_In, Hin.
    + apply Z.leb_le. tlia.
  - intros r Hin Hafter. exists candles. split; [exact Hresample |].
    apply elem_of_app in Hin as [Hkept | Hnew]; [| exact Hnew].
    apply list_elem_of_In, List.filter_In in Hkept as [_ Hle].
    apply Z.leb_le in Hle. tlia.
Qed.

Lemma increasing_cons_intro x ax :
  is_monotonic_increasing ax = true ->
  Forall (fun y => x <= y) ax ->
  is_monotonic_increasing (x :: ax) = true.
Proof.
  destruct ax as [|y ax]; intros Hinc Hall; [reflexivity |].
  cbn [is_monotonic_increasing]. apply Forall_cons in Hall as [Hxy _].
  apply andb_true_iff. split; [apply Z.leb_le; exact Hxy | exact Hinc].
Qed.

Lemma increasing_app ax bx :
  is_monotonic_increasing ax = true ->
  is_monotonic_increasing bx = true ->
  (forall x y, x ∈ ax -> y ∈ bx -> x <= y) ->
  is_monotonic_increasing (ax ++ bx) = true.
Proof.
  induction ax as [|x ax IH]; intros Ha Hb Hle; [exact Hb |].
  apply increasing_cons in Ha as [Ha Hall]. cbn [app].
  apply increasing_cons_intro.
  - apply IH; [exact Ha | exact Hb |].
    intros u v Hu Hv. apply Hle; [right; exact Hu | exact Hv].
  - apply Forall_app. split; [exact Hall |].
    rewrite Forall_forall. intros y Hy. apply Hle; [left | exact Hy].
Qed.

Lemma increasing_filter {Row} (p : Timestamp * Row -> bool) (df : DataFrame Row) :
  is_monotonic_increasing (index df) = true ->
  is_monotonic_increasing (index (List.filter p df)) = true.
Proof.
  induction df as [|[t r] df IH]; intros Hinc; [reflexivity |].
  change (index ((t, r) :: df)) with (t :: index df) in Hinc.
  apply increasing_cons in Hinc as [Hrest Hall].
  cbn [List.filter]. destruct (p (t, r)); [| exact (IH Hrest)].
  change (index ((t, r) :: List.filter p df))
    with (t :: index (List.filter p df)).
  apply increasing_cons_intro; [exact (IH Hrest) |].
  rewrite Forall_forall in *. intros y Hy.
  apply Hall. unfold index in *.
  apply list_elem_of_fmap in Hy as (row & -> & Hrow).
  apply list_elem_of_fmap. exists row. split; [reflexivity |].
  apply list_elem_of_In. apply list_elem_of_In, List.filter_In in Hrow as [Hrow _].
  exact Hrow.
Qed.

(** The kept rows followed by candles that start at the window are in
    order when the table and the candles are. *)
Lemma kept_then_candles_increasing self delta (candles : DataFrame CandleRow) :
  is_monotonic_increasing (index (candle_df self)) = true ->
  is_monotonic_increasing (index candles) = true ->
  Forall (fun r => start_ts delta <= r.1) candles ->
  is_monotonic_increasing (index (kept_rows self delta ++ candles)) = true.
Proof.
  intros Hinc Hcandles Hfrom.
  unfold index at 1. rewrite map_app.
  apply increasing_app.
  - apply (increasing_filter _ (candle_df self)), Hinc.
  - exact Hcandles.
  - intros x y Hx Hy. unfold kept_rows in Hx.
    apply list_elem_of_fmap in Hx as (rx & -> & Hrx).
    apply list_elem_of_fmap in Hy as (ry & -> & Hry).
    apply list_elem_of_In, List.filter_In in Hrx as [_ Hle].
    apply Z.leb_le in Hle.
    rewrite Forall_forall in Hfrom. specialize (Hfrom ry Hry).
    cbn in Hfrom. tlia.
Qed.

(** X11. Deltas that reach back far enough keep the table in order: when
    the table is increasing, and the resampled candles are increasing
    and none is labelled before [delta.start_ts], [apply_delta] returns
    and the new table is increasing again. *)
Theorem apply_delta_keeps_order self delta candles :
  is_monotonic_increasing (index (candle_df self)) = true ->
  ohlcv_resample_trades (trades delta) (timeframe self) = Ok candles ->
  is_monotonic_increasing (index candles) = true ->
  Forall (fun r => start_ts delta <= r.1) candles ->
  exists self',
    apply_delta self delta = Ok self' /\
    is_monotonic_increasing (index (candle_df self')) = true.
Proof.
  intros Hinc Hresample Hcandles Hfrom.
  assert (Hsorted : is_sorted (index (candle_df self)) = true)
    by (unfold is_sorted; rewrite Hinc; reflexivity).
  eexists. split; [exact (apply_delta_returns self delta candles Hsorted Hresample) |].
  cbn [candle_df]. apply kept_then_candles_increasing; assumption.
Qed.

(** X12. A delta whose trades resample to no candle, with a window that
    starts at or after every row, changes nothing but [last_cycle]. *)
Theorem apply_delta_no_candles self delta :
  is_sorted (index (candle_df self)) = true ->
  ohlcv_resample_trades (trades delta) (timeframe self) = Ok [] ->
  Forall (fun r => r.1 <= start_ts delta) (candle_df self) ->
  apply_delta self delta
    = Ok {| timeframe := timeframe self;
            candle_df := candle_df self;
            last_cycle := cycle delta |}.
Proof.
  intros Hsorted Hresample Hbefore.
  rewrite (apply_delta_returns self delta [] Hsorted Hresample).
  unfold kept_rows. rewrite app_nil_r, filter_all; [reflexivity |].
  eapply Forall_impl; [exact Hbefore |].
  cbn. intros r Hr. apply Z.leb_le. exact Hr.
Qed.

Lemma filter_narrower {A} (p q : A -> bool) (l : list A) :
  (forall x, p x = true -> q x = true) ->
  List.filter p (List.filter q l) = List.filter p l.
Proof.
  intros Hpq. induction l as [|x l IH]; [reflexivity |].
  cbn [List.filter]. destruct (q x) eqn:Hq.
  - cbn [List.filter]. rewrite IH. reflexivity.
  - destruct (p x) eqn:Hp; [| exact IH].
    rewrite (Hpq x Hp) in Hq. discriminate Hq.
Qed.

Lemma apply_delta_resample_raises self delta e :
  is_sorted (index (candle_df self)) = true ->
  ohlcv_resample_trades (trades delta) (timeframe self) = Raise e ->
  apply_delta self delta = Raise e.
Proof.
  intros Hsorted Hresample. unfold apply_delta.
  rewrite truncate_after_sorted by exact Hsorted.
  cbn [mbind result_bind]. rewrite Hresample. reflexivity.
Qed.

(** X13. A correction supersedes what it covers. On a feed whose table
    is increasing, let a first delta resample to increasing candles, none
    labelled before its [start_ts], and let a second delta start no later
    than the first and strictly before every one of those candles. Then
    the first [apply_delta] returns, and applying the second after it
    gives what applying the second alone to the original feed gives: the
    same feed when the second resampling returns, the same exception
    when it raises. *)
Theorem correction_supersedes self delta1 delta2 candles1 :
  is_monotonic_increasing (index (candle_df self)) = true ->
  ohlcv_resample_trades (trades delta1) (timeframe self) = Ok candles1 ->
  is_monotonic_increasing (index candles1) = true ->
  Forall (fun r => start_ts delta1 <= r.1) candles1 ->
  start_ts delta2 <= start_ts delta1 ->
  Forall (fun r => start_ts delta2 < r.1) candles1 ->
  exists self1,
    apply_delta self delta1 = Ok self1 /\
    apply_delta self1 delta2 = apply_delta self delta2.
Proof.
  intros Hinc Hresample1 Hcandles Hfrom Hearlier Hcovered.
  assert (Hsorted : is_sorted (index (candle_df self)) = true)
    by (unfold is_sorted; rewrite Hinc; reflexivity).
  eexists. split;
    [exact (apply_delta_returns self delta1 candles1 Hsorted Hresample1) |].
  set (self1 := {| timeframe := timeframe self;
                   candle_df := kept_rows self delta1 ++ candles1;
                   last_cycle := cycle delta1 |}).
  assert (Hsorted1 : is_sorted (index (candle_df self1)) = true).
  { unfold is_sorted. cbn [candle_df self1].
    rewrite kept_then_candles_increasing by assumption. reflexivity. }
  destruct (ohlcv_resample_trades (trades delta2) (timeframe self))
    as [c2|e] eqn:Hr2.
  - rewrite (apply_delta_returns self1 delta2 c2 Hsorted1 Hr2).
    rewrite (apply_delta_returns self delta2 c2 Hsorted Hr2).
    cbn [timeframe self1]. f_equal. f_equal.
    unfold kept_rows at 1. cbn [candle_df self1].
    rewrite filter_app_none.
    + unfold kept_rows. f_equal. apply filter_narrower.
      intros r Hr. apply Z.leb_le in Hr. apply Z.leb_le. tlia.
    + eapply Forall_impl; [exact Hcovered |].
      cbn. intros r Hr. apply Z.leb_gt. exact Hr.
  - rewrite (apply_delta_resample_raises self1 delta2 e Hsorted1 Hr2).
    rewrite (apply_delta_resample_raises self delta2 e Hsorted Hr2).
    reflexivity.
Qed.

End CandleFeedMore.

Section CandleFeedMoreExamples.
Import pandas candle_feed.

(** An unsorted table is within reach: a window that starts after the
    last row and carries a trade of an earlier hour leaves one. *)
Example late_trade_unsorts :
  apply_delta feed_two_hours delta_late_trade = Ok feed_out_of_order /\
  is_sorted (index (candle_df feed_out_of_order)) = false.
Proof. split; vm_compute; reflexivity. Qed.

Lemma unsorted_feed_stuck_witness :
  run feed_out_of_order (map ApplyDelta [delta_cycle_1; delta_correction])
    = ([Raised (ValueError "truncate requires a sorted index");
        Raised (ValueError "truncate requires a sorted index")],
       feed_out_of_order).
Proof.
  apply (unsorted_feed_stuck feed_out_of_order [delta_cycle_1; delta_correction]).
  reflexivity.
Defined.

Lemma apply_delta_history_witness :
  (at_10_00, candle_10_00) ∈ candle_df (feed_two_rows candle_10_00_late 2).
Proof.
  assert (Happly : apply_delta feed_10_00 delta_from_10_30
                   = Ok (feed_two_rows candle_10_00_late 2))
    by (vm_compute; reflexivity).
  apply (proj1 (apply_delta_history feed_10_00 delta_from_10_30 _ Happly)).
  - left.
  - vm_compute. reflexivity.
Defined.

(** The hour of ten, then a window from half past ten with the hours of
    eleven and of twelve. *)
Example two_more_hours :
  apply_delta feed_10_00 delta_two_hours = Ok feed_three_hours /\
  index (candle_df feed_three_hours) = [at_10_00; at_11_00; at_12_00].
Proof. split; vm_compute; reflexivity. Qed.

Lemma apply_delta_keeps_order_witness :
  exists self',
    apply_delta feed_10_00 delta_two_hours = Ok self' /\
    is_monotonic_increasing (index (candle_df self')) = true.
Proof.
  apply (apply_delta_keeps_order feed_10_00 delta_two_hours
           [(at_11_00, candle_11_00); (at_12_00, candle_12_00)]).
  - reflexivity.
  - vm_compute. reflexivity.
  - reflexivity.
  - repeat constructor; vm_compute; discriminate.
Defined.

Lemma apply_delta_no_candles_witness :
  apply_delta feed_10_00 delta_no_trades
    = Ok {| timeframe := timeframe feed_10_00;
            candle_df := candle_df feed_10_00;
            last_cycle := cycle delta_no_trades |}.
Proof.
  apply (apply_delta_no_candles feed_10_00 delta_no_trades).
  - reflexivity.
  - vm_compute. reflexivity.
  - repeat constructor. vm_compute. discriminate.
Defined.

(** The hour of eleven is applied in cycle 2, and then corrected from
    half past ten on. *)
Lemma correction_supersedes_witness :
  exists self1,
    apply_delta feed_10_00 delta_hour_11 = Ok self1 /\
    apply_delta self1 delta_two_hours = apply_delta feed_10_00 delta_two_hours.
Proof.
  apply (correction_supersedes feed_10_00 delta_hour_11 delta_two_hours
           [(at_11_00, candle_11_00)]).
  - reflexivity.
  - vm_compute. reflexivity.
  - reflexivity.
  - repeat constructor; vm_compute; discriminate.
  - vm_compute. discriminate.
  - repeat constructor.
Defined.

(** Without the order of the first delta's candles the two ways part: a
    first delta that leaves the table out of order makes the correction
    raise, while the correction alone returns. *)
Example correction_after_unsorting :
  apply_delta feed_two_hours delta_late_trade = Ok feed_out_of_order /\
  is_ok (apply_delta feed_out_of_order delta_correction) = false /\
  apply_delta feed_two_hours delta_correction = Ok feed_recomputed.
Proof. repeat split; vm_compute; reflexivity. Qed.

End CandleFeedMoreExamples.
